(** * The agent response pipeline of app.py

    A shallow embedding of [clean_text_for_json], [Agent.process] and
    [MultiAgentSystem.run_workflow], with the library functions they call
    ([str.strip], [re.search], [json.loads], [str], [dict.get]) modelled
    next to them.

    A Python [str] is a sequence of Unicode code points; it is modelled as a
    list of numbers, one per code point. *)

From Stdlib Require Import List NArith ZArith Lia Bool String Ascii Arith.
From Stdlib Require DecimalString.
Import ListNotations.

Local Open Scope N_scope.
Local Open Scope list_scope.

(** ** Text *)

Definition pystr := list N.

(** [ord(char)]. *)
Definition ord (c : N) : N := c.

(** A literal of the source, character by character (the literals of the
    source that are written this way are all ASCII). *)
Definition py (s : string) : pystr :=
  map N_of_ascii (list_ascii_of_string s).

(** Named characters. *)
Definition LF : N := 10.
Definition CR : N := 13.
Definition TAB : N := 9.
Definition DQUOTE : N := 34.
Definition SQUOTE : N := 39.
Definition BACKSLASH : N := 92.
Definition LBRACE : N := 123.
Definition RBRACE : N := 125.
Definition DEL : N := 127.

(** [len(s)]. *)
Definition len (s : pystr) : nat := List.length s.

(** [char in chars], for a one-character [char]. *)
Definition char_in (c : N) (chars : pystr) : bool :=
  existsb (N.eqb c) chars.

Definition pystr_eqb (a b : pystr) : bool :=
  if list_eq_dec N.eq_dec a b then true else false.

(** [sep.join(parts)]. *)
Fixpoint join (sep : pystr) (parts : list pystr) : pystr :=
  match parts with
  | [] => []
  | [p] => p
  | p :: rest => p ++ sep ++ join sep rest
  end.

(** [text.replace(old, new)] where [old] is one character: every occurrence
    is replaced, left to right. *)
Definition replace (old : N) (new : pystr) (text : pystr) : pystr :=
  flat_map (fun c => if c =? old then new else [c]) text.

(** [text.encode('ascii', 'ignore').decode('ascii')]: the code points the
    ASCII codec cannot encode (128 and above) are skipped, the others come
    back unchanged. *)
Definition encode_ascii_ignore (text : pystr) : pystr :=
  filter (fun c => c <? 128) text.

(** ** clean_text_for_json (app.py, lines 10-21) *)

Definition clean_text_for_json (text : pystr) : pystr :=
  (* Remove control characters *)
  let text := filter (fun char => (32 <=? ord char) || char_in char [LF; CR; TAB]) text in
  (* Handle escaped characters *)
  let text := replace TAB (py "\t") (replace CR (py "\r") (replace LF (py "\n") text)) in
  (* Remove any potential Unicode issues *)
  let text := encode_ascii_ignore text in
  text.

(** The printable ASCII range: space to tilde. *)
Definition printable_ascii (c : N) : Prop := 32 <= c <= 126.

(** What the sanitizer's output is made of: ASCII, nothing below 32. *)
Definition json_safe (c : N) : Prop := 32 <= c <= 127.

(** What one character becomes. *)
Definition clean_char (c : N) : pystr :=
  if c =? LF then py "\n"
  else if c =? CR then py "\r"
  else if c =? TAB then py "\t"
  else if (32 <=? c) && (c <? 128) then [c]
  else [].

(** ** Python values

    The values [json.loads] can return.  A float is kept as the text it was
    read from: its digits are only ever turned back into text, by the
    interpreter's [repr], which is a parameter of the development. *)

Inductive pyfloat : Type :=
| Fnan
| Finf
| Fneginf
| Fdec (lexeme : pystr).

#[local] Set Warnings "-register-all".

Inductive pyobj : Type :=
| PNone
| PBool (b : bool)
| PInt (z : Z)
| PFloat (f : pyfloat)
| PStr (s : pystr)
| PList (items : list pyobj)
| PDict (items : list (pystr * pyobj)).

(** A [dict] with [str] keys: the items in insertion order, every key once. *)
Definition pydict := list (pystr * pyobj).

(** [d.get(key)] as an option: [None] when the key is absent. *)
Fixpoint dict_lookup (d : pydict) (key : pystr) : option pyobj :=
  match d with
  | [] => None
  | (k, v) :: rest => if pystr_eqb k key then Some v else dict_lookup rest key
  end.

(** [d.get(key, default)]. *)
Definition dict_get (d : pydict) (key : pystr) (default : pyobj) : pyobj :=
  match dict_lookup d key with
  | Some v => v
  | None => default
  end.

(** [d[key] = value]: an existing key keeps its place, a new one goes last. *)
Fixpoint dict_setitem (d : pydict) (key : pystr) (value : pyobj) : pydict :=
  match d with
  | [] => [(key, value)]
  | (k, v) :: rest =>
      if pystr_eqb k key then (k, value) :: rest
      else (k, v) :: dict_setitem rest key value
  end.

(** [dict(pairs)]. *)
Definition dict_of_pairs (pairs : list (pystr * pyobj)) : pydict :=
  fold_left (fun d kv => dict_setitem d (fst kv) (snd kv)) pairs [].

(** What the interpreter supplies and the development does not compute:
    [float_repr lexeme] is [repr(float(lexeme))], and [isprintable c] is
    [chr(c).isprintable()] for a code point above 127 (the Unicode
    database). *)
Record runtime : Type := {
  float_repr : pystr -> pystr;
  isprintable : N -> bool
}.

(** *** str and repr *)

Definition ch (a : ascii) : N := N_of_ascii a.

Definition hexdigits : pystr := py "0123456789abcdef".

(** The last [width] hexadecimal digits of [n], most significant first. *)
Fixpoint hex (width : nat) (n : N) : pystr :=
  match width with
  | O => []
  | S w => hex w (n / 16) ++ [nth (N.to_nat (n mod 16)) hexdigits 0]
  end.

(** [str(z)] for an [int]. *)
Definition int_str (z : Z) : pystr :=
  py (DecimalString.NilZero.string_of_int (Z.to_int z)).

(** One character of [repr(s)], [quote] being the quote chosen for [s]. *)
Definition repr_char (rt : runtime) (quote : N) (c : N) : pystr :=
  if (c =? quote) || (c =? BACKSLASH) then [BACKSLASH; c]
  else if c =? TAB then py "\t"
  else if c =? LF then py "\n"
  else if c =? CR then py "\r"
  else if (c <? 32) || (c =? 127) then py "\x" ++ hex 2 c
  else if c <? 127 then [c]
  else if isprintable rt c then [c]
  else if c <=? 255 then py "\x" ++ hex 2 c
  else if c <=? 65535 then py "\u" ++ hex 4 c
  else py "\U" ++ hex 8 c.

(** [repr(s)] for a [str]: single quotes, unless [s] has a single quote and
    no double quote. *)
Definition str_repr (rt : runtime) (s : pystr) : pystr :=
  let quote := if char_in SQUOTE s && negb (char_in DQUOTE s) then DQUOTE else SQUOTE in
  [quote] ++ flat_map (repr_char rt quote) s ++ [quote].

Definition float_str (rt : runtime) (f : pyfloat) : pystr :=
  match f with
  | Fnan => py "nan"
  | Finf => py "inf"
  | Fneginf => py "-inf"
  | Fdec lexeme => float_repr rt lexeme
  end.

Fixpoint py_repr (rt : runtime) (o : pyobj) : pystr :=
  match o with
  | PNone => py "None"
  | PBool true => py "True"
  | PBool false => py "False"
  | PInt z => int_str z
  | PFloat f => float_str rt f
  | PStr s => str_repr rt s
  | PList items => py "[" ++ join (py ", ") (map (py_repr rt) items) ++ py "]"
  | PDict items =>
      py "{" ++
      join (py ", ")
        (map (fun kv => match kv with
                        | (k, v) => str_repr rt k ++ py ": " ++ py_repr rt v
                        end) items) ++
      py "}"
  end.

(** [str(o)]. *)
Definition py_str (rt : runtime) (o : pyobj) : pystr :=
  match o with
  | PStr s => s
  | _ => py_repr rt o
  end.

(** [type(o).__name__]. *)
Definition type_name (o : pyobj) : pystr :=
  match o with
  | PNone => py "NoneType"
  | PBool _ => py "bool"
  | PInt _ => py "int"
  | PFloat _ => py "float"
  | PStr _ => py "str"
  | PList _ => py "list"
  | PDict _ => py "dict"
  end.

(** ** json.loads

    The decoder of the standard library ([json.decoder], [json.scanner]) with
    its default settings, on a [str].  Every [JSONDecodeError] is the same
    to its only caller here, which catches it and ignores its message, so
    the decoder's failures carry no text.  The interpreter's resource limits
    (recursion depth, the digit limit of [int], memory) are outside the
    model; an exception they cause would reach the [except Exception] of
    [process] like any other.

    A scanner consumes a prefix of the text and gives a value and the
    remaining text.  [Starved] is not an outcome of the decoder: it marks a
    loop of the model that ran out of fuel, which [scan_once_fuel] shows
    never happens from [json_loads]. *)

Inductive scan (A : Type) : Type :=
| Scanned (value : A) (rest : pystr)
| Invalid
| Starved.

Arguments Scanned {A} value rest.
Arguments Invalid {A}.
Arguments Starved {A}.

Definition scan_bind {A B : Type} (m : scan A) (k : A -> pystr -> scan B) : scan B :=
  match m with
  | Scanned a rest => k a rest
  | Invalid => Invalid
  | Starved => Starved
  end.

Definition scan_map {A B : Type} (f : A -> B) (m : scan A) : scan B :=
  scan_bind m (fun a rest => Scanned (f a) rest).

(** [WHITESPACE_STR = ' \t\n\r'] *)
Definition json_ws (c : N) : bool := char_in c [ch " "; TAB; LF; CR].

(** [end = _w(s, end).end()] *)
Fixpoint skip_ws (s : pystr) : pystr :=
  match s with
  | c :: rest => if json_ws c then skip_ws rest else s
  | [] => []
  end.

(** [s[idx:idx + len(prefix)] == prefix], with what follows the prefix. *)
Fixpoint starts_with (prefix s : pystr) : option pystr :=
  match prefix, s with
  | [], _ => Some s
  | p :: prefix', c :: s' => if p =? c then starts_with prefix' s' else None
  | _ :: _, [] => None
  end.

(** *** Strings: py_scanstring, strict *)

Definition hex_value (c : N) : option N :=
  if (48 <=? c) && (c <=? 57) then Some (c - 48)
  else if (65 <=? c) && (c <=? 70) then Some (c - 55)
  else if (97 <=? c) && (c <=? 102) then Some (c - 87)
  else None.

(** [_decode_uXXXX]: four hexadecimal digits. *)
Definition decode_uXXXX (h1 h2 h3 h4 : N) : option N :=
  match hex_value h1, hex_value h2, hex_value h3, hex_value h4 with
  | Some a, Some b, Some c, Some d => Some (((a * 16 + b) * 16 + c) * 16 + d)
  | _, _, _, _ => None
  end.

(** The table [BACKSLASH] of the decoder. *)
Definition backslash_table (esc : N) : option N :=
  if esc =? DQUOTE then Some DQUOTE
  else if esc =? BACKSLASH then Some BACKSLASH
  else if esc =? ch "/" then Some (ch "/")
  else if esc =? ch "b" then Some 8
  else if esc =? ch "f" then Some 12
  else if esc =? ch "n" then Some LF
  else if esc =? ch "r" then Some CR
  else if esc =? ch "t" then Some TAB
  else None.

Definition high_surrogate (uni : N) : bool := (0xd800 <=? uni) && (uni <=? 0xdbff).
Definition low_surrogate (uni : N) : bool := (0xdc00 <=? uni) && (uni <=? 0xdfff).

Definition join_surrogates (uni uni2 : N) : N :=
  0x10000 + N.lor (N.shiftl (uni - 0xd800) 10) (uni2 - 0xdc00).

(** The text after an opening quote, up to the closing quote. *)
Fixpoint scanstring (s : pystr) : scan pystr :=
  match s with
  | [] => Invalid                                   (* Unterminated string *)
  | c :: rest =>
      if c =? DQUOTE then Scanned [] rest
      else if c =? BACKSLASH then
        match rest with
        | [] => Invalid                             (* Unterminated string *)
        | esc :: rest1 =>
            if esc =? ch "u" then
              match rest1 with
              | h1 :: h2 :: h3 :: h4 :: rest2 =>
                  match decode_uXXXX h1 h2 h3 h4 with
                  | None => Invalid                 (* Invalid \uXXXX escape *)
                  | Some uni =>
                      let single := scan_map (cons uni) (scanstring rest2) in
                      if high_surrogate uni then
                        match rest2 with
                        | b :: u :: g1 :: g2 :: g3 :: g4 :: rest3 =>
                            if (b =? BACKSLASH) && (u =? ch "u") then
                              match decode_uXXXX g1 g2 g3 g4 with
                              | None => Invalid     (* Invalid \uXXXX escape *)
                              | Some uni2 =>
                                  if low_surrogate uni2
                                  then scan_map (cons (join_surrogates uni uni2))
                                         (scanstring rest3)
                                  else single
                              end
                            else single
                        | _ => single
                        end
                      else single
                  end
              | _ => Invalid                        (* Invalid \uXXXX escape *)
              end
            else
              match backslash_table esc with
              | Some char => scan_map (cons char) (scanstring rest1)
              | None => Invalid                     (* Invalid \escape *)
              end
        end
      else if c <? 32 then Invalid                  (* Invalid control character *)
      else scan_map (cons c) (scanstring rest)
  end.

(** *** Numbers: NUMBER_RE *)

Definition is_digit (c : N) : bool := (48 <=? c) && (c <=? 57).

(** The digits at the front, and the rest. *)
Fixpoint span_digits (s : pystr) : pystr * pystr :=
  match s with
  | c :: rest =>
      if is_digit c then let (ds, r) := span_digits rest in (c :: ds, r)
      else ([], s)
  | [] => ([], [])
  end.

(** The integer group of [NUMBER_RE]: an optional minus sign, then either a
    single zero or a digit from one to nine followed by any digits. *)
Definition match_integer (s : pystr) : option (pystr * pystr) :=
  let (sign, s1) :=
    match s with
    | c :: r => if c =? ch "-" then ([c], r) else ([], s)
    | [] => ([], s)
    end in
  match s1 with
  | d :: r =>
      if d =? ch "0" then Some (sign ++ [d], r)
      else if is_digit d then let (ds, r') := span_digits r in Some (sign ++ d :: ds, r')
      else None
  | [] => None
  end.

(** The optional fraction group: a dot and at least one digit. *)
Definition match_frac (s : pystr) : pystr * pystr :=
  match s with
  | c :: r =>
      if c =? ch "." then
        match span_digits r with
        | ([], _) => ([], s)
        | (ds, r') => (c :: ds, r')
        end
      else ([], s)
  | [] => ([], s)
  end.

(** The optional exponent group: [e] or [E], an optional sign, at least one
    digit. *)
Definition match_exp (s : pystr) : pystr * pystr :=
  match s with
  | e :: r =>
      if (e =? ch "e") || (e =? ch "E") then
        let (sign, r1) :=
          match r with
          | c :: r' => if (c =? ch "-") || (c =? ch "+") then ([c], r') else ([], r)
          | [] => ([], r)
          end in
        match span_digits r1 with
        | ([], _) => ([], s)
        | (ds, r2) => (e :: sign ++ ds, r2)
        end
      else ([], s)
  | [] => ([], s)
  end.

(** [int(integer)], for a text [match_integer] gave. *)
Definition parse_int (integer : pystr) : Z :=
  let digits_value (ds : pystr) : Z :=
    fold_left (fun acc d => (acc * 10 + Z.of_N (d - 48))%Z) ds 0%Z in
  match integer with
  | c :: ds => if c =? ch "-" then (- digits_value ds)%Z else digits_value integer
  | [] => 0%Z
  end.

(** [match_number], and the value the scanner makes of the match. *)
Definition scan_number (s : pystr) : scan pyobj :=
  match match_integer s with
  | None => Invalid
  | Some (integer, r) =>
      let (frac, r1) := match_frac r in
      let (exp, r2) := match_exp r1 in
      match frac, exp with
      | [], [] => Scanned (PInt (parse_int integer)) r2
      | _, _ => Scanned (PFloat (Fdec (integer ++ frac ++ exp))) r2
      end
  end.

(** *** Arrays and objects: JSONArray, JSONObject

    Both receive the scanner for the values they contain, as in the
    library.  Their [while True] loops are the recursive functions
    [array_items] and [object_pairs]; one round of either consumes at least
    one character, so the length of the text bounds the rounds. *)

(** The loop of [JSONArray], entered in front of a value. *)
Fixpoint array_items (scan_once : pystr -> scan pyobj) (fuel : nat) (s : pystr)
  : scan (list pyobj) :=
  match fuel with
  | O => Starved
  | S fuel' =>
      scan_bind (scan_once s) (fun value rest =>
        match skip_ws rest with
        | nextchar :: rest' =>
            if nextchar =? ch "]" then Scanned [value] rest'
            else if nextchar =? ch "," then
              scan_map (cons value) (array_items scan_once fuel' (skip_ws rest'))
            else Invalid                            (* Expecting ',' delimiter *)
        | [] => Invalid                             (* Expecting ',' delimiter *)
        end)
  end.

(** The text after an opening bracket. *)
Definition JSONArray (scan_once : pystr -> scan pyobj) (s : pystr) : scan pyobj :=
  let s := skip_ws s in
  match s with
  | nextchar :: rest =>
      if nextchar =? ch "]" then Scanned (PList []) rest
      else scan_map PList (array_items scan_once (S (len s)) s)
  | [] => Invalid                                   (* Expecting value *)
  end.

(** The loop of [JSONObject], entered after the opening quote of a key. *)
Fixpoint object_pairs (scan_once : pystr -> scan pyobj) (fuel : nat) (s : pystr)
  : scan (list (pystr * pyobj)) :=
  match fuel with
  | O => Starved
  | S fuel' =>
      scan_bind (scanstring s) (fun key rest =>
        match skip_ws rest with
        | colon :: rest1 =>
            if colon =? ch ":" then
              scan_bind (scan_once (skip_ws rest1)) (fun value rest2 =>
                match skip_ws rest2 with
                | nextchar :: rest3 =>
                    if nextchar =? RBRACE then Scanned [(key, value)] rest3
                    else if nextchar =? ch "," then
                      match skip_ws rest3 with
                      | quote :: rest4 =>
                          if quote =? DQUOTE then
                            scan_map (cons (key, value))
                              (object_pairs scan_once fuel' rest4)
                          else Invalid              (* Expecting property name *)
                      | [] => Invalid               (* Expecting property name *)
                      end
                    else Invalid                    (* Expecting ',' delimiter *)
                | [] => Invalid                     (* Expecting ',' delimiter *)
                end)
            else Invalid                            (* Expecting ':' delimiter *)
        | [] => Invalid                             (* Expecting ':' delimiter *)
        end)
  end.

(** The text after an opening brace. *)
Definition JSONObject (scan_once : pystr -> scan pyobj) (s : pystr) : scan pyobj :=
  match skip_ws s with
  | nextchar :: rest =>
      if nextchar =? RBRACE then Scanned (PDict []) rest
      else if nextchar =? DQUOTE then
        scan_map (fun pairs => PDict (dict_of_pairs pairs))
          (object_pairs scan_once (S (len rest)) rest)
      else Invalid                                  (* Expecting property name *)
  | [] => Invalid                                   (* Expecting property name *)
  end.

(** *** The scanner: py_make_scanner's _scan_once

    [fuel] bounds the nesting of arrays and objects. *)
Fixpoint scan_once (fuel : nat) (s : pystr) : scan pyobj :=
  match fuel with
  | O => Starved
  | S fuel' =>
      match s with
      | [] => Invalid                               (* StopIteration *)
      | nextchar :: rest =>
          if nextchar =? DQUOTE then scan_map PStr (scanstring rest)
          else if nextchar =? LBRACE then JSONObject (scan_once fuel') rest
          else if nextchar =? ch "[" then JSONArray (scan_once fuel') rest
          else
            match starts_with (py "null") s with
            | Some r => Scanned PNone r
            | None =>
            match starts_with (py "true") s with
            | Some r => Scanned (PBool true) r
            | None =>
            match starts_with (py "false") s with
            | Some r => Scanned (PBool false) r
            | None =>
            match scan_number s with
            | Scanned number r => Scanned number r
            | _ =>
            match starts_with (py "NaN") s with
            | Some r => Scanned (PFloat Fnan) r
            | None =>
            match starts_with (py "Infinity") s with
            | Some r => Scanned (PFloat Finf) r
            | None =>
            match starts_with (py "-Infinity") s with
            | Some r => Scanned (PFloat Fneginf) r
            | None => Invalid                       (* StopIteration *)
            end end end end end end end
      end
  end.

(** The outcome of [json.loads]: a value, or [JSONDecodeError]. *)
Inductive loads_result : Type :=
| Loaded (obj : pyobj)
| JSONDecodeError.

(** [json.loads(s)] for a [str]: no byte order mark, optional whitespace, one
    value, optional whitespace, the end of the text. *)
Definition json_loads (s : pystr) : loads_result :=
  match s with
  | 0xfeff :: _ => JSONDecodeError                  (* Unexpected UTF-8 BOM *)
  | _ =>
      match scan_once (S (len s)) (skip_ws s) with
      | Scanned obj rest =>
          match skip_ws rest with
          | [] => Loaded obj
          | _ :: _ => JSONDecodeError               (* Extra data *)
          end
      | Invalid => JSONDecodeError                  (* Expecting value, ... *)
      | Starved => JSONDecodeError                  (* never: scan_once_fuel *)
      end
  end.

(** A scanner that succeeds leaves strictly less text. *)
Definition progresses {A : Type} (f : pystr -> scan A) : Prop :=
  forall s v r, f s = Scanned v r -> (len r < len s)%nat.

(** ** str.strip and re.search *)

(** [chr(c).isspace()]: the white space of the Unicode database. *)
Definition isspace (c : N) : bool :=
  ((0x09 <=? c) && (c <=? 0x0d)) || ((0x1c <=? c) && (c <=? 0x20)) ||
  (c =? 0x85) || (c =? 0xa0) || (c =? 0x1680) ||
  ((0x2000 <=? c) && (c <=? 0x200a)) ||
  (c =? 0x2028) || (c =? 0x2029) || (c =? 0x202f) || (c =? 0x205f) || (c =? 0x3000).

Fixpoint lstrip (s : pystr) : pystr :=
  match s with
  | c :: rest => if isspace c then lstrip rest else s
  | [] => []
  end.

Definition rstrip (s : pystr) : pystr := rev (lstrip (rev s)).

(** [s.strip()] *)
Definition strip (s : pystr) : pystr := rstrip (lstrip s).

(** The longest prefix of [s] that ends with the character [c]: what a
    greedy "anything, then [c]" matches at the start of [s]. *)
Fixpoint upto_last (c : N) (s : pystr) : option pystr :=
  match s with
  | [] => None
  | x :: rest =>
      match upto_last c rest with
      | Some m => Some (x :: m)
      | None => if x =? c then Some [x] else None
      end
  end.

(** [re.search(r'\{[\s\S]*\}', text)], as the matched text
    ([json_match.group(0)]) or [None].  The search tries the start positions
    from the left; at an opening brace the class [[\s\S]] takes any
    characters, as many as leave a closing brace to end on. *)
Fixpoint re_search_braces (text : pystr) : option pystr :=
  match text with
  | [] => None
  | x :: rest =>
      if x =? LBRACE then
        match upto_last RBRACE rest with
        | Some m => Some (x :: m)
        | None => re_search_braces rest
        end
      else re_search_braces rest
  end.

(** ** Exceptions, the world and the collaborators *)

(** An exception of class [Exception]: its class name and [str(e)]. *)
Record exn : Type := Exception {
  exn_type : string;
  exn_str : pystr
}.

Inductive outcome (A : Type) : Type :=
| Returned (a : A)
| Raised (e : exn).

Arguments Returned {A} a.
Arguments Raised {A} e.

(** [d[key]] *)
Definition dict_getitem (rt : runtime) (d : pydict) (key : pystr) : outcome pyobj :=
  match dict_lookup d key with
  | Some v => Returned v
  | None => Raised (Exception "KeyError" (str_repr rt key))
  end.

(** One entry of [Agent.conversation_history]:
    [{"role": ..., "content": ...}]. *)
Record ConversationEntry : Type := {
  entry_role : pystr;
  entry_content : pyobj
}.

Record Agent : Type := {
  name : pystr;
  role : pystr;
  conversation_history : list ConversationEntry
}.

(** [Agent.__init__] *)
Definition Agent_init (name role : pystr) : Agent :=
  {| name := name; role := role; conversation_history := [] |}.

(** The keys of [MultiAgentSystem.agents]. *)
Inductive agent_key : Type := researcher | writer | critic.

(** [MultiAgentSystem.agents], a dict with exactly these three keys. *)
Record MultiAgentSystem : Type := {
  agent_researcher : Agent;
  agent_writer : Agent;
  agent_critic : Agent
}.

(** [MultiAgentSystem.__init__] *)
Definition MultiAgentSystem_init : MultiAgentSystem :=
  {| agent_researcher := Agent_init (py "Researcher") (py "research and data analysis expert");
     agent_writer := Agent_init (py "Writer") (py "content creation expert");
     agent_critic := Agent_init (py "Critic") (py "quality control expert") |}.

(** [self.agents[k]] *)
Definition agents (sys : MultiAgentSystem) (k : agent_key) : Agent :=
  match k with
  | researcher => agent_researcher sys
  | writer => agent_writer sys
  | critic => agent_critic sys
  end.

Definition set_agent (sys : MultiAgentSystem) (k : agent_key) (a : Agent) : MultiAgentSystem :=
  match k with
  | researcher => {| agent_researcher := a; agent_writer := agent_writer sys;
                     agent_critic := agent_critic sys |}
  | writer => {| agent_researcher := agent_researcher sys; agent_writer := a;
                 agent_critic := agent_critic sys |}
  | critic => {| agent_researcher := agent_researcher sys;
                 agent_writer := agent_writer sys; agent_critic := a |}
  end.

(** The arguments of one [client.messages.create] call. *)
Record request : Type := {
  req_model : pystr;
  req_max_tokens : N;
  req_content : pystr;       (* messages[0]["content"], of role "user" *)
  req_system : pystr;
  req_temperature : pystr    (* the literal, as written *)
}.

(** What the user interface was told. *)
Inductive ui_event : Type :=
| StatusWrite (label : pystr)
| StatusUpdate (label state : pystr)
| StError (message : pystr).

(** The state a run works on: the three agents, and a record of what was
    asked of the collaborators, oldest first. *)
Record world : Type := {
  system : MultiAgentSystem;
  requests : list request;
  ui : list ui_event
}.

(** The collaborators.

    [messages_create earlier req] is the outcome of
    [await self.client.messages.create(...)] followed by
    [message.content[0].text]: the reply text, or the exception raised
    (network, authentication, rate limit, time-out, a reply without a text
    block); it may depend on the requests made before.

    [status_write label] is the exception [status.write(label)] raises, if
    any: the one statement of the workflow's [try] block, outside
    [process], that can fail while a stage is prepared.  Reporting a fault
    ([st.error], [status.update]) is fire-and-forget and is only recorded. *)
Record environment : Type := {
  messages_create : list request -> request -> outcome pystr;
  status_write : pystr -> option exn
}.

(** *** Stateful code that can raise *)

Definition M (A : Type) : Type := world -> outcome A * world.

Definition ret {A : Type} (a : A) : M A := fun w => (Returned a, w).

Definition raise {A : Type} (e : exn) : M A := fun w => (Raised e, w).

Definition bind {A B : Type} (m : M A) (k : A -> M B) : M B :=
  fun w =>
    match m w with
    | (Returned a, w') => k a w'
    | (Raised e, w') => (Raised e, w')
    end.

(** [try: body except Exception as e: handler]: what the body did to the
    world before it raised stays done. *)
Definition try_except {A : Type} (body : M A) (handler : exn -> M A) : M A :=
  fun w =>
    match body w with
    | (Returned a, w') => (Returned a, w')
    | (Raised e, w') => handler e w'
    end.

Definition lift {A : Type} (o : outcome A) : M A := fun w => (o, w).

Declare Scope monad_scope.
Delimit Scope monad_scope with monad.
Notation "x <- c1 ;; c2" := (bind c1 (fun x => c2))
  (at level 61, c1 at next level, right associativity) : monad_scope.
Notation "c1 ;; c2" := (bind c1 (fun _ => c2))
  (at level 61, right associativity) : monad_scope.

(** The three ways a step changes the world. *)
Definition log_ui (ev : ui_event) (w : world) : world :=
  {| system := system w; requests := requests w; ui := ui w ++ [ev] |}.

Definition log_request (req : request) (w : world) : world :=
  {| system := system w; requests := requests w ++ [req]; ui := ui w |}.

Definition log_entry (self : agent_key) (entry : ConversationEntry) (w : world) : world :=
  let a := agents (system w) self in
  let a' := {| name := name a; role := role a;
               conversation_history := conversation_history a ++ [entry] |} in
  {| system := set_agent (system w) self a'; requests := requests w; ui := ui w |}.

Definition tell (ev : ui_event) : M unit :=
  fun w => (Returned tt, log_ui ev w).

(** [st.error(message)] *)
Definition st_error (message : pystr) : M unit := tell (StError message).

(** [status.update(label=..., state=...)] *)
Definition status_update (label state : pystr) : M unit :=
  tell (StatusUpdate label state).

(** [self.agents[k]], read *)
Definition get_agent (k : agent_key) : M Agent :=
  fun w => (Returned (agents (system w) k), w).

(** [self.conversation_history.append(entry)] *)
Definition history_append (self : agent_key) (entry : ConversationEntry) : M unit :=
  fun w => (Returned tt, log_entry self entry w).

(** ** Agent (app.py, lines 23-88) and MultiAgentSystem (lines 90-132) *)

Definition quoted (s : string) : pystr := [DQUOTE] ++ py s ++ [DQUOTE].

(** [Agent.get_system_prompt]: the lines of the triple-quoted literal. *)
Definition get_system_prompt (self : Agent) : pystr :=
  py "You are " ++ name self ++ py ", a " ++ role self ++ py ". " ++ [LF] ++
  py "        Work collaboratively with other agents to solve tasks." ++ [LF] ++
  py "        Your response must be only a valid JSON string in this exact format, with no additional text or formatting:" ++ [LF] ++
  py "        {" ++ quoted "thoughts" ++ py ": " ++ quoted "your analytical process" ++
  py ", " ++ quoted "response" ++ py ": " ++ quoted "your actual response" ++ py "}" ++ [LF] ++
  py "        Keep all newlines and special characters properly escaped in your JSON.".

(** The content of the one user message of a call. *)
Definition user_content (input_text : pystr) : pystr :=
  py "Task input: " ++ input_text ++ [LF; LF] ++
  py "Provide your response as a single JSON object with 'thoughts' and 'response' fields only. No other text or formatting.".

Definition create_request (self : Agent) (input_text : pystr) : request :=
  {| req_model := py "claude-3-sonnet-20240229";
     req_max_tokens := 1000;
     req_content := user_content input_text;
     req_system := get_system_prompt self;
     req_temperature := py "0.7" |}.

(** The record built when the reply is not JSON. *)
Definition structured_from_text (cleaned_text : pystr) : pyobj :=
  PDict [(py "thoughts", PStr (py "Processed the input and structured the response"));
         (py "response", PStr cleaned_text)].

(** The record of the [except] branch of [process]. *)
Definition fallback_response (e : exn) : pydict :=
  [(py "thoughts", PStr (py "Error occurred during processing"));
   (py "response",
    PStr (py "I encountered an error while processing the input: " ++ exn_str e ++
          py ". Please try rephrasing your request."))].

(** The stage inputs of [run_workflow]. *)
Definition researcher_input (task : pystr) : pystr :=
  py "Analyze this topic and provide key points: " ++ task.

Definition writer_input (task research_response : pystr) : pystr :=
  py "Using these research points: " ++ research_response ++ [LF] ++
  py "Create a well-structured explanation of: " ++ task.

Definition critic_input (task write_response : pystr) : pystr :=
  py "Review this explanation of " ++ task ++ py ":" ++ [LF] ++ write_response ++ [LF] ++
  py "Provide specific feedback and suggestions.".

(** The status lines of [run_workflow]; each opens with an emoji. *)
Definition researcher_status : pystr :=
  [0x1f50d] ++ py " Researcher agent is analyzing the task...".

Definition writer_status : pystr :=
  [0x270d; 0xfe0f] ++ py " Writer agent is creating content...".

Definition critic_status : pystr :=
  [0x1f4dd] ++ py " Critic agent is reviewing the content...".

(** One entry of the list [run_workflow] returns:
    [{"agent": ..., "output": ...}]. *)
Record WorkflowResult : Type := {
  agent : pystr;
  output : pydict
}.

Section Pipeline.

Variable rt : runtime.
Variable env : environment.

Local Open Scope monad_scope.

(** [await self.client.messages.create(...)], then [message.content[0].text] *)
Definition create_message (req : request) : M pystr :=
  fun w => (messages_create env (requests w) req, log_request req w).

(** [status.write(label)] *)
Definition do_status_write (label : pystr) : M unit :=
  match status_write env label with
  | Some e => raise e
  | None => tell (StatusWrite label)
  end.

(** The look-up of the method [response_json.get], which opens the first
    statement after the parse: only a dict has it. *)
Definition get_method (response_json : pyobj) : outcome pydict :=
  match response_json with
  | PDict d => Returned d
  | other =>
      Raised (Exception "AttributeError"
                (py "'" ++ type_name other ++ py "' object has no attribute 'get'"))
  end.

(** Lines 50-73: from the text of the reply to the record. *)
Definition structure_response (message_text : pystr) : outcome pydict :=
  (* Get the response text and clean it *)
  let response_text := strip message_text in
  (* Try to extract JSON if it's wrapped in other text *)
  let json_match := re_search_braces response_text in
  let response_text :=
    match json_match with
    | Some group0 => group0
    | None => response_text
    end in
  (* Clean the text for JSON parsing *)
  let cleaned_text := clean_text_for_json response_text in
  let response_json :=
    match json_loads cleaned_text with
    | Loaded obj => obj
    | JSONDecodeError =>
        (* If JSON parsing fails, create a structured response from the text *)
        structured_from_text cleaned_text
    end in
  (* Clean the values in the response *)
  match get_method response_json with
  | Raised e => Raised e
  | Returned d =>
      let d := dict_setitem d (py "thoughts")
                 (PStr (clean_text_for_json (py_str rt (dict_get d (py "thoughts") (PStr []))))) in
      let d := dict_setitem d (py "response")
                 (PStr (clean_text_for_json (py_str rt (dict_get d (py "response") (PStr []))))) in
      Returned d
  end.

(** The [try] block of [Agent.process]. *)
Definition process_try (self : agent_key) (input_text : pystr) : M pydict :=
  this <- get_agent self ;;
  message_text <- create_message (create_request this input_text) ;;
  response_json <- lift (structure_response message_text) ;;
  content <- lift (dict_getitem rt response_json (py "response")) ;;
  history_append self {| entry_role := name this; entry_content := content |} ;;
  ret response_json.

(** The [except Exception as e] block of [Agent.process]. *)
Definition process_except (e : exn) : M pydict :=
  st_error (py "Processing error: " ++ exn_str e) ;;
  (* Create a safe fallback response *)
  ret (fallback_response e).

(** [Agent.process] *)
Definition process (self : agent_key) (input_text : pystr) : M pydict :=
  try_except (process_try self input_text) process_except.

(** [f"{record['response']}"] *)
Definition format_response (record : pydict) : M pystr :=
  value <- lift (dict_getitem rt record (py "response")) ;;
  ret (py_str rt value).

(** The [try] block of [MultiAgentSystem.run_workflow]. *)
Definition run_workflow_try (task : pystr) : M (list WorkflowResult) :=
  let results := [] in
  (* Research phase *)
  do_status_write researcher_status ;;
  research_result <- process researcher (researcher_input task) ;;
  let results := results ++ [{| agent := py "researcher"; output := research_result |}] in
  (* Writing phase *)
  do_status_write writer_status ;;
  research_response <- format_response research_result ;;
  write_result <- process writer (writer_input task research_response) ;;
  let results := results ++ [{| agent := py "writer"; output := write_result |}] in
  (* Review phase *)
  do_status_write critic_status ;;
  write_response <- format_response write_result ;;
  review_result <- process critic (critic_input task write_response) ;;
  let results := results ++ [{| agent := py "critic"; output := review_result |}] in
  status_update (py "Workflow completed!") (py "complete") ;;
  ret results.

(** The [except Exception as e] block of [run_workflow]. *)
Definition run_workflow_except (e : exn) : M (list WorkflowResult) :=
  status_update (py "Error: " ++ exn_str e) (py "error") ;;
  st_error (py "Workflow error: " ++ exn_str e) ;;
  ret [].

(** [MultiAgentSystem.run_workflow].  The [with st.status(...)] block
    around the [try] belongs to the user interface. *)
Definition run_workflow (task : pystr) : M (list WorkflowResult) :=
  try_except (run_workflow_try task) run_workflow_except.

End Pipeline.

(** ** Vocabulary of the statements *)

(** Sanitized text: a fixed point of [clean_text_for_json]. *)
Definition sanitized (t : pystr) : Prop := clean_text_for_json t = t.

(** [whole] embeds [part]. *)
Definition embeds (whole part : pystr) : Prop :=
  exists before after, whole = before ++ part ++ after.

(** A record with both fields present and holding text. *)
Definition structured (d : pydict) (thoughts response : pystr) : Prop :=
  dict_lookup d (py "thoughts") = Some (PStr thoughts) /\
  dict_lookup d (py "response") = Some (PStr response).

(** Both fields present, both sanitized text. *)
Definition fields_sanitized (d : pydict) : Prop :=
  exists thoughts response,
    structured d thoughts response /\ sanitized thoughts /\ sanitized response.

(** The response text of the [except] branch of [process]. *)
Definition fault_text (e : exn) : pystr :=
  py "I encountered an error while processing the input: " ++ exn_str e ++
  py ". Please try rephrasing your request.".

(** The agents differ from those of [w] at most in the history of [self],
    which has grown by [entries]. *)
Definition history_grew (self : agent_key) (entries : list ConversationEntry)
    (w w' : world) : Prop :=
  forall k,
    name (agents (system w') k) = name (agents (system w) k) /\
    role (agents (system w') k) = role (agents (system w) k) /\
    conversation_history (agents (system w') k) =
      conversation_history (agents (system w) k) ++
      (match k, self with
       | researcher, researcher | writer, writer | critic, critic => entries
       | _, _ => []
       end).

(** The reply of the round trip: the JSON object with the two fields "a"
    and "b", written as the system prompt asks. *)
Definition reply_a_b : pystr :=
  py "{" ++ quoted "thoughts" ++ py ": " ++ quoted "a" ++ py ", " ++
  quoted "response" ++ py ": " ++ quoted "b" ++ py "}".

(** [w'] comes after [w]: the model was asked [asked] more, and the agents
    are who they were. *)
Definition follows (w : world) (asked : list request) (w' : world) : Prop :=
  requests w' = requests w ++ asked /\
  forall k, name (agents (system w') k) = name (agents (system w) k) /\
            role (agents (system w') k) = role (agents (system w) k).

(** The user interface accepts every status line. *)
Definition status_never_fails (env : environment) : Prop :=
  forall label, status_write env label = None.

(** The record [process] returns for the reply [text]: the one built from
    the text, or the error record when building it raised. *)
Definition record_made (rt : runtime) (text : pystr) : pydict :=
  match structure_response rt text with
  | Returned d => d
  | Raised e => fallback_response e
  end.

(** [f"{record['response']}"], for a record that has the field. *)
Definition response_of (rt : runtime) (record : pydict) : pystr :=
  match dict_lookup record (py "response") with
  | Some value => py_str rt value
  | None => []
  end.

(** The entries a completed run returns. *)
Definition three_results (o1 o2 o3 : pydict) : list WorkflowResult :=
  [{| agent := py "researcher"; output := o1 |};
   {| agent := py "writer"; output := o2 |};
   {| agent := py "critic"; output := o3 |}].

(** The world after the [except] block of [run_workflow] reported [e]. *)
Definition aborted (e : exn) (w : world) : world :=
  log_ui (StError (py "Workflow error: " ++ exn_str e))
    (log_ui (StatusUpdate (py "Error: " ++ exn_str e) (py "error")) w).

(** A character a JSON string holds as it is and the sanitizer keeps: ASCII
    from 32 on, neither the double quote nor the backslash. *)
Definition plain (c : N) : Prop := 32 <= c <= 127 /\ c <> DQUOTE /\ c <> BACKSLASH.

(** The reply the system prompt asks for, with [a] as thoughts and [b] as
    response. *)
Definition reply_of (a b : pystr) : pystr :=
  py "{" ++ quoted "thoughts" ++ py ": " ++ [DQUOTE] ++ a ++ [DQUOTE] ++ py ", " ++
  quoted "response" ++ py ": " ++ [DQUOTE] ++ b ++ [DQUOTE] ++ py "}".

(** *** Closed instances, for the examples *)

(** A runtime; no example below prints a float or a character above 127. *)
Definition example_runtime : runtime :=
  {| float_repr := fun lexeme => lexeme; isprintable := fun _ => true |}.

(** A model that answers every call with the same text. *)
Definition replying (text : pystr) : environment :=
  {| messages_create := fun _ _ => Returned text; status_write := fun _ => None |}.

(** A model whose every call fails with [e]. *)
Definition failing (e : exn) : environment :=
  {| messages_create := fun _ _ => Raised e; status_write := fun _ => None |}.

(** A model whose first call of a run fails with [e], the later ones
    answering [text]. *)
Definition failing_first (e : exn) (text : pystr) : environment :=
  {| messages_create := fun earlier _ =>
       match earlier with
       | [] => Raised e
       | _ :: _ => Returned text
       end;
     status_write := fun _ => None |}.

(** A user interface that fails with [e] on the status line of the writer
    stage, under a model that answers [text]. *)
Definition failing_writer_status (e : exn) (text : pystr) : environment :=
  {| messages_create := fun _ _ => Returned text;
     status_write := fun label =>
       if pystr_eqb label writer_status then Some e else None |}.

(** The world of a fresh [MultiAgentSystem]. *)
Definition fresh_world : world :=
  {| system := MultiAgentSystem_init; requests := []; ui := [] |}.

(** The reply of scenario C of the specification: the object inside prose. *)
Definition reply_in_prose : pystr :=
  py "Sure! {" ++ quoted "thoughts" ++ py ":" ++ quoted "x" ++ py "," ++
  quoted "response" ++ py ":" ++ quoted "y" ++ py "} Hope that helps!".

(** The same object, one field a line. *)
Definition reply_on_lines : pystr :=
  py "{" ++ [LF] ++ py "  " ++ quoted "thoughts" ++ py ": " ++ quoted "x" ++ py "," ++ [LF] ++
  py "  " ++ quoted "response" ++ py ": " ++ quoted "y" ++ [LF] ++ py "}".

(** A fault with a one-line description. *)
Definition timeout_fault : exn :=
  Exception "APITimeoutError" (py "Request timed out.").

(** A fault whose description spans two lines. *)
Definition two_line_fault : exn :=
  Exception "APIConnectionError" (py "Connection error." ++ [LF] ++ py "Retry later.").

(** ** Further vocabulary: the candidate payload *)

(** The text [process] hands to the sanitizer (lines 51-56): the reply
    without surrounding white space, cut down to the span of braces when
    there is one. *)
Definition raw_candidate (message_text : pystr) : pystr :=
  let response_text := strip message_text in
  match re_search_braces response_text with
  | Some group0 => group0
  | None => response_text
  end.

(** The text [process] hands to [json.loads] (line 59). *)
Definition candidate (message_text : pystr) : pystr :=
  clean_text_for_json (raw_candidate message_text).

(** The description of the [AttributeError] that [obj.get] raises. *)
Definition no_get_text (obj : pyobj) : pystr :=
  py "'" ++ type_name obj ++ py "' object has no attribute 'get'".

(** A reply with a field the prompt did not ask for and without the
    response field. *)
Definition reply_with_extra : pystr :=
  py "{" ++ quoted "thoughts" ++ py ": 5, " ++ quoted "mood" ++ py ": " ++
  quoted "calm" ++ py "}".

(** ** Further vocabulary: what a run leaves behind *)

(** From [w] to [w'] every agent kept its name and role, and its history
    gained at most one entry at the end. *)
Definition append_only (w w' : world) : Prop :=
  forall k,
    name (agents (system w') k) = name (agents (system w) k) /\
    role (agents (system w') k) = role (agents (system w) k) /\
    exists entries,
      conversation_history (agents (system w') k) =
        conversation_history (agents (system w) k) ++ entries /\
      (List.length entries <= 1)%nat.

(** ** The page: create_agent_card (app.py, lines 134-142) and main (lines
    144-202) *)

(** [s.title()] for a text within ASCII, which the agent keys are: a letter
    is put in upper case when it follows a character that is not a letter,
    in lower case when it follows a letter. *)
Definition ascii_islower (c : N) : bool := (97 <=? c) && (c <=? 122).
Definition ascii_isupper (c : N) : bool := (65 <=? c) && (c <=? 90).

Fixpoint title_from (previous_is_cased : bool) (s : pystr) : pystr :=
  match s with
  | [] => []
  | c :: rest =>
      (if previous_is_cased
       then (if ascii_isupper c then c + 32 else c)
       else (if ascii_islower c then c - 32 else c))
      :: title_from (ascii_islower c || ascii_isupper c) rest
  end.

Definition title (s : pystr) : pystr := title_from false s.

(** What a call of Streamlit puts on the page; [st.error] is recorded in the
    world, with the messages of [process] and [run_workflow]. *)
Inductive widget : Type :=
| WSetPageConfig (page_title layout initial_sidebar_state : pystr)
| WTitle (text : pystr)
| WMarkdown (text : pystr)
| WHeader (text : pystr)
| WSubheader (text : pystr)
| WWrite (value : pyobj)
| WDivider
| WTextInput (label : pystr)
| WTextArea (label placeholder : pystr) (height : N)
| WButton (label : pystr)
| WWarning (text : pystr)
| WSpinner (text : pystr)
| WSidebar (content : list widget)
| WContainer (content : list widget)
| WExpander (label : pystr) (expanded : bool) (content : list widget).

(** [create_agent_card]: one container. *)
Definition create_agent_card (agent_name : pystr) (thoughts response : pyobj) : widget :=
  WContainer
    [WSubheader ([0x1f916] ++ py " " ++ agent_name);
     WExpander (py "Show agent's thoughts") true
       [WWrite (PStr ([0x1f4ad] ++ py " **Thoughts:**"));
        WWrite thoughts];
     WWrite (PStr ([0x1f4c4] ++ py " **Response:**"));
     WWrite response;
     WDivider].

(** The state of one execution of the script: the world of the pipeline and
    the page built so far. *)
Record session : Type := {
  backend : world;
  page : list widget
}.

Definition P (A : Type) : Type := session -> outcome A * session.

Definition P_ret {A : Type} (a : A) : P A := fun s => (Returned a, s).

Definition P_bind {A B : Type} (m : P A) (k : A -> P B) : P B :=
  fun s =>
    match m s with
    | (Returned a, s') => k a s'
    | (Raised e, s') => (Raised e, s')
    end.

Definition P_try_except {A : Type} (body : P A) (handler : exn -> P A) : P A :=
  fun s =>
    match body s with
    | (Returned a, s') => (Returned a, s')
    | (Raised e, s') => handler e s'
    end.

(** A step of the pipeline, run on the world of the session. *)
Definition on_backend {A : Type} (m : M A) : P A :=
  fun s =>
    match m (backend s) with
    | (o, w') => (o, {| backend := w'; page := page s |})
    end.

(** A call that puts a widget on the page. *)
Definition put (wg : widget) : P unit :=
  fun s => (Returned tt, {| backend := backend s; page := page s ++ [wg] |}).

(** [system = MultiAgentSystem(api_key)]: three new agents. *)
Definition new_system : P unit :=
  fun s =>
    (Returned tt,
     {| backend := {| system := MultiAgentSystem_init;
                      requests := requests (backend s);
                      ui := ui (backend s) |};
        page := page s |}).

Declare Scope page_scope.
Delimit Scope page_scope with page.
Notation "x <- c1 ;; c2" := (P_bind c1 (fun x => c2))
  (at level 61, c1 at next level, right associativity) : page_scope.
Notation "c1 ;; c2" := (P_bind c1 (fun _ => c2))
  (at level 61, right associativity) : page_scope.

(** The text under the title. *)
Definition intro_markdown : pystr :=
  [LF] ++
  py "    This system demonstrates collaboration between three AI agents:" ++ [LF] ++
  py "    - " ++ [0x1f50d] ++
  py " **Researcher**: Analyzes tasks and provides key information" ++ [LF] ++
  py "    - " ++ [0x270d; 0xfe0f] ++
  py " **Writer**: Creates content based on research findings" ++ [LF] ++
  py "    - " ++ [0x1f4dd] ++
  py " **Critic**: Reviews and provides feedback on the content" ++ [LF] ++
  py "    ".

(** The text in the sidebar. *)
Definition sidebar_markdown : pystr :=
  [LF] ++
  py "        ### How it works" ++ [LF] ++
  py "        1. Enter your API key" ++ [LF] ++
  py "        2. Input your task" ++ [LF] ++
  py "        3. Watch the agents collaborate" ++ [LF] ++
  py "        4. Review the results" ++ [LF] ++
  py "        ".

(** What [main] shows before it looks at the key. *)
Definition page_top : list widget :=
  [WSetPageConfig (py "Multi-Agent System") (py "wide") (py "expanded");
   WTitle ([0x1f916] ++ py " Multi-Agent Collaboration System");
   WMarkdown intro_markdown;
   WSidebar [WHeader (py "Configuration");
             WTextInput (py "Enter Anthropic API Key:");
             WDivider;
             WMarkdown sidebar_markdown]].

(** The two input widgets below it. *)
Definition page_inputs : list widget :=
  [WTextArea (py "Enter your task:") (py "e.g., Explain the theory of relativity") 100;
   WButton (py "Run Workflow")].

Section Page.

Variable rt : runtime.
Variable env : environment.

Local Open Scope page_scope.

(** The body of [for result in results]: the three arguments, then the
    card. *)
Definition render_result (result : WorkflowResult) : P unit :=
  let agent_name := title (agent result) in
  thoughts <- on_backend (lift (dict_getitem rt (output result) (py "thoughts"))) ;;
  response <- on_backend (lift (dict_getitem rt (output result) (py "response"))) ;;
  put (create_agent_card agent_name thoughts response).

Fixpoint render_results (results : list WorkflowResult) : P unit :=
  match results with
  | [] => P_ret tt
  | result :: rest => render_result result ;; render_results rest
  end.

(** The [try] block of [main]. *)
Definition main_try (task : pystr) : P unit :=
  put (WSpinner (py "Processing your request...")) ;;
  results <- on_backend (run_workflow rt env task) ;;
  match results with
  | [] => P_ret tt
  | _ :: _ =>
      put (WHeader (py "Results")) ;;
      render_results results
  end.

(** The [except Exception as e] block of [main]. *)
Definition main_except (e : exn) : P unit :=
  on_backend (st_error (py "An error occurred: " ++ exn_str e)) ;;
  on_backend (st_error (py "Please check your API key and try again.")).

(** [main], for one execution of the script: [api_key] and [task] are what
    the two text widgets return, [run_clicked] what the button returns. *)
Definition main (api_key task : pystr) (run_clicked : bool) : P unit :=
  fold_right (fun wg rest => put wg ;; rest) (P_ret tt) page_top ;;
  match api_key with
  | [] =>
      put (WWarning (py "Please enter your Anthropic API key in the sidebar to continue."))
  | _ :: _ =>
      new_system ;;
      fold_right (fun wg rest => put wg ;; rest) (P_ret tt) page_inputs ;;
      if run_clicked then
        match task with
        | [] => on_backend (st_error (py "Please enter a task."))
        | _ :: _ => P_try_except (main_try task) main_except
        end
      else P_ret tt
  end.

End Page.

(** The page of a run that returned [results]: nothing for an empty list,
    else the header and a card for each entry that has both fields. *)
Definition card_of (result : WorkflowResult) : widget :=
  create_agent_card (title (agent result))
    (dict_get (output result) (py "thoughts") PNone)
    (dict_get (output result) (py "response") PNone).

Definition results_page (results : list WorkflowResult) : list widget :=
  match results with
  | [] => []
  | _ :: _ => WHeader (py "Results") :: map card_of results
  end.

(** A session that starts with an empty page. *)
Definition fresh_session : session := {| backend := fresh_world; page := [] |}.
(** ** Properties of the sanitizer *)

Lemma clean_text_for_json_app (a b : pystr) :
  clean_text_for_json (a ++ b) = clean_text_for_json a ++ clean_text_for_json b.
Proof.
  unfold clean_text_for_json, encode_ascii_ignore, replace.
  now rewrite filter_app, !flat_map_app, filter_app.
Qed.

Lemma clean_text_for_json_cons (c : N) (t : pystr) :
  clean_text_for_json (c :: t) = clean_char c ++ clean_text_for_json t.
Proof.
  change (c :: t) with ([c] ++ t). rewrite clean_text_for_json_app. f_equal.
  unfold clean_text_for_json, clean_char, encode_ascii_ignore, replace, char_in, ord,
    LF, CR, TAB.
  cbn [filter existsb].
  destruct (N.eqb_spec c 10) as [->|H10]; [reflexivity|].
  destruct (N.eqb_spec c 13) as [->|H13]; [reflexivity|].
  destruct (N.eqb_spec c 9) as [->|H9]; [reflexivity|].
  cbn [orb].
  destruct (N.leb_spec 32 c) as [Hge|Hlt]; cbn [orb andb flat_map app filter].
  - destruct (N.eqb_spec c 10); [contradiction|].
    cbn [flat_map app].
    destruct (N.eqb_spec c 13); [contradiction|].
    cbn [flat_map app].
    destruct (N.eqb_spec c 9); [contradiction|].
    cbn [filter app]. now destruct (c <? 128).
  - reflexivity.
Qed.

Lemma clean_text_for_json_flat_map (t : pystr) :
  clean_text_for_json t = flat_map clean_char t.
Proof.
  induction t as [|c t IH]; [reflexivity|].
  rewrite clean_text_for_json_cons, IH. reflexivity.
Qed.

Lemma clean_char_json_safe (c : N) : Forall json_safe (clean_char c).
Proof.
  unfold clean_char, json_safe.
  destruct (c =? LF); [repeat constructor; cbn; lia|].
  destruct (c =? CR); [repeat constructor; cbn; lia|].
  destruct (c =? TAB); [repeat constructor; cbn; lia|].
  destruct (N.leb_spec 32 c), (N.ltb_spec c 128); cbn [andb]; repeat constructor; lia.
Qed.

Lemma clean_char_fixed (c : N) : json_safe c -> clean_char c = [c].
Proof.
  unfold json_safe, clean_char, LF, CR, TAB. intros [Hlo Hhi].
  destruct (N.eqb_spec c 10); [lia|].
  destruct (N.eqb_spec c 13); [lia|].
  destruct (N.eqb_spec c 9); [lia|].
  destruct (N.leb_spec 32 c); [|lia].
  destruct (N.ltb_spec c 128); [reflexivity|lia].
Qed.

Lemma clean_text_for_json_json_safe (t : pystr) :
  Forall json_safe (clean_text_for_json t).
Proof.
  rewrite clean_text_for_json_flat_map.
  induction t as [|c t IH]; cbn [flat_map]; [constructor|].
  apply Forall_app. split; [apply clean_char_json_safe | exact IH].
Qed.

Lemma clean_text_for_json_fixed (t : pystr) :
  Forall json_safe t -> clean_text_for_json t = t.
Proof.
  rewrite clean_text_for_json_flat_map.
  induction 1 as [|c t Hc _ IH]; cbn [flat_map]; [reflexivity|].
  now rewrite (clean_char_fixed c Hc), IH.
Qed.

Lemma clean_text_for_json_fixed_iff (t : pystr) :
  clean_text_for_json t = t <-> Forall json_safe t.
Proof.
  split; [|apply clean_text_for_json_fixed].
  intros <-. apply clean_text_for_json_json_safe.
Qed.

(** ** The decoder's loops terminate

    A scanner that succeeds leaves strictly less text, and with the fuel
    [json_loads] provides no loop of the model is cut short. *)

Lemma scan_map_Scanned {A B : Type} (f : A -> B) (m : scan A) (v : B) (r : pystr) :
  scan_map f m = Scanned v r -> exists a, m = Scanned a r /\ v = f a.
Proof.
  destruct m; cbn; intros H; try discriminate.
  injection H as <- <-. eauto.
Qed.

Lemma scan_map_Starved {A B : Type} (f : A -> B) (m : scan A) :
  scan_map f m = Starved -> m = Starved.
Proof. destruct m; cbn; intros H; try discriminate; reflexivity. Qed.

Lemma skip_ws_len (s : pystr) : (len (skip_ws s) <= len s)%nat.
Proof.
  unfold len. induction s as [|c s IH]; cbn [skip_ws]; [lia|].
  destruct (json_ws c); cbn [List.length] in *; lia.
Qed.

Lemma starts_with_len (prefix s r : pystr) :
  starts_with prefix s = Some r -> (len r + len prefix = len s)%nat.
Proof.
  unfold len. revert s. induction prefix as [|p prefix IH]; intros s; cbn.
  - intros [= <-]. lia.
  - destruct s as [|c s]; [discriminate|].
    destruct (p =? c); [|discriminate]. intros H. apply IH in H. cbn. lia.
Qed.

Lemma span_digits_len (s ds r : pystr) :
  span_digits s = (ds, r) -> (len r <= len s)%nat.
Proof.
  unfold len. revert ds r. induction s as [|c s IH]; intros ds r; cbn.
  - intros [= <- <-]. cbn. lia.
  - destruct (is_digit c).
    + destruct (span_digits s) as [ds' r'] eqn:E. intros [= <- <-].
      specialize (IH _ _ eq_refl). lia.
    + intros [= <- <-]. cbn. lia.
Qed.

Lemma match_integer_len (s integer r : pystr) :
  match_integer s = Some (integer, r) -> (len r < len s)%nat.
Proof.
  unfold match_integer, len.
  assert (Hd : forall s1 sign, 
    match s1 with
    | d :: r0 =>
        if d =? ch "0" then Some (sign ++ [d], r0)
        else if is_digit d
             then let (ds, r') := span_digits r0 in Some (sign ++ d :: ds, r')
             else None
    | [] => None
    end = Some (integer, r) -> (List.length r < List.length s1)%nat).
  { intros [|d r0] sign; [discriminate|].
    destruct (d =? ch "0"); [intros [= <- <-]; cbn; lia|].
    destruct (is_digit d); [|discriminate].
    destruct (span_digits r0) as [ds r'] eqn:E. intros [= <- <-].
    apply span_digits_len in E. unfold len in E. cbn. lia. }
  destruct s as [|c r0]; [discriminate|].
  destruct (c =? ch "-"); intros H;
    [apply (Hd r0 [c]) in H | apply (Hd (c :: r0) []) in H]; cbn in *; lia.
Qed.

Lemma match_frac_len (s frac r : pystr) :
  match_frac s = (frac, r) -> (len r <= len s)%nat.
Proof.
  unfold match_frac, len. destruct s as [|c r0]; [intros [= <- <-]; lia|].
  destruct (c =? ch "."); [|intros [= <- <-]; lia].
  destruct (span_digits r0) as [[|d ds] r'] eqn:E; intros [= <- <-]; [lia|].
  apply span_digits_len in E. unfold len in E. cbn. lia.
Qed.

Lemma match_exp_len (s exp r : pystr) :
  match_exp s = (exp, r) -> (len r <= len s)%nat.
Proof.
  unfold match_exp, len. destruct s as [|e r0]; [intros [= <- <-]; lia|].
  destruct ((e =? ch "e") || (e =? ch "E")); [|intros [= <- <-]; lia].
  destruct (match r0 with
            | [] => ([], r0)
            | c :: r' => if (c =? ch "-") || (c =? ch "+") then ([c], r') else ([], r0)
            end) as [sign r1] eqn:Esign.
  assert (Hr1 : (List.length r1 <= List.length r0)%nat).
  { destruct r0 as [|c r']; [injection Esign as <- <-; lia|].
    destruct ((c =? ch "-") || (c =? ch "+")); injection Esign as <- <-; cbn; lia. }
  destruct (span_digits r1) as [[|d ds] r2] eqn:E; intros [= <- <-]; [lia|].
  apply span_digits_len in E. unfold len in E. cbn. lia.
Qed.

Lemma scan_number_progresses : progresses scan_number.
Proof.
  intros s v r. unfold scan_number.
  destruct (match_integer s) as [[integer r0]|] eqn:Ei; [|discriminate].
  destruct (match_frac r0) as [frac r1] eqn:Ef.
  destruct (match_exp r1) as [exp r2] eqn:Ee.
  apply match_integer_len in Ei. apply match_frac_len in Ef. apply match_exp_len in Ee.
  destruct frac, exp; intros [= <- <-]; lia.
Qed.

Lemma scan_number_not_Starved (s : pystr) : scan_number s <> Starved.
Proof.
  unfold scan_number.
  destruct (match_integer s) as [[integer r0]|]; [|discriminate].
  destruct (match_frac r0) as [frac r1]. destruct (match_exp r1) as [exp r2].
  destruct frac, exp; discriminate.
Qed.

Lemma scanstring_spec (n : nat) :
  forall s, (len s <= n)%nat ->
    scanstring s <> Starved /\
    forall v r, scanstring s = Scanned v r -> (len r < len s)%nat.
Proof.
  unfold len.
  induction n as [|n IH]; intros s Hn.
  - destruct s; [|cbn in Hn; lia]. cbn. split; [discriminate|]. discriminate.
  - assert (Hrec : forall (f : pystr -> pystr) (s' : pystr),
               (List.length s' < List.length s)%nat ->
               scan_map f (scanstring s') <> Starved /\
               forall v r, scan_map f (scanstring s') = Scanned v r ->
                           (List.length r < List.length s)%nat).
    { intros f s' Hs'. destruct (IH s' ltac:(lia)) as [Hns Hp]. split.
      - intros H. apply scan_map_Starved in H. contradiction.
      - intros v r H. apply scan_map_Scanned in H as (a & H & _).
        apply Hp in H. lia. }
    destruct s as [|c rest]; [cbn; split; discriminate|].
    cbn [scanstring].
    repeat first
      [ match goal with
        | |- Scanned _ _ <> Starved /\ _ =>
            split; [discriminate | intros ? ? [= <- <-]; cbn; lia]
        | |- Invalid <> Starved /\ _ => split; discriminate
        | |- scan_map _ (scanstring _) <> Starved /\ _ =>
            apply Hrec; cbn; lia
        | |- context [let single := _ in _] => cbv zeta
        | |- context [match ?l with [] => _ | _ :: _ => _ end] => destruct l
        | |- context [match ?o with Some _ => _ | None => _ end] => destruct o
        | |- context [if ?b then _ else _] => destruct b
        end ].
Qed.

Lemma scanstring_progresses : progresses scanstring.
Proof. intros s v r. apply (scanstring_spec (len s) s (le_n _)). Qed.

Lemma scanstring_not_Starved (s : pystr) : scanstring s <> Starved.
Proof. apply (scanstring_spec (len s) s (le_n _)). Qed.

Section Loops.

Variable scan_value : pystr -> scan pyobj.
Hypothesis scan_value_progresses : progresses scan_value.

Lemma array_items_progresses (fuel : nat) :
  progresses (array_items scan_value fuel).
Proof.
  induction fuel as [|fuel IH]; intros s v r; cbn [array_items]; [discriminate|].
  destruct (scan_value s) as [value rest| |] eqn:Ev; cbn [scan_bind]; try discriminate.
  apply scan_value_progresses in Ev.
  pose proof (skip_ws_len rest) as Hws.
  destruct (skip_ws rest) as [|nextchar rest'] eqn:Er; [discriminate|].
  unfold len in *. cbn [List.length] in Hws.
  destruct (nextchar =? ch "]"); [intros [= <- <-]; lia|].
  destruct (nextchar =? ch ","); [|discriminate].
  intros H. apply scan_map_Scanned in H as (a & H & _).
  apply IH in H. pose proof (skip_ws_len rest'). unfold len in *. lia.
Qed.

Lemma object_pairs_progresses (fuel : nat) :
  progresses (object_pairs scan_value fuel).
Proof.
  induction fuel as [|fuel IH]; intros s v r; cbn [object_pairs]; [discriminate|].
  destruct (scanstring s) as [key rest| |] eqn:Ek; cbn [scan_bind]; try discriminate.
  apply scanstring_progresses in Ek.
  pose proof (skip_ws_len rest) as Hws.
  destruct (skip_ws rest) as [|colon rest1] eqn:Er; [discriminate|].
  destruct (colon =? ch ":"); [|discriminate].
  pose proof (skip_ws_len rest1) as Hws1.
  destruct (scan_value (skip_ws rest1)) as [value rest2| |] eqn:Ev;
    cbn [scan_bind]; try discriminate.
  apply scan_value_progresses in Ev.
  pose proof (skip_ws_len rest2) as Hws2.
  destruct (skip_ws rest2) as [|nextchar rest3] eqn:Er2; [discriminate|].
  unfold len in *. cbn [List.length] in *.
  destruct (nextchar =? RBRACE); [intros [= <- <-]; lia|].
  destruct (nextchar =? ch ","); [|discriminate].
  pose proof (skip_ws_len rest3) as Hws3.
  destruct (skip_ws rest3) as [|quote rest4] eqn:Er3; [discriminate|].
  destruct (quote =? DQUOTE); [|discriminate].
  intros H. apply scan_map_Scanned in H as (a & H & _).
  apply IH in H. unfold len in *. cbn [List.length] in *. lia.
Qed.

Lemma JSONArray_progresses : progresses (JSONArray scan_value).
Proof.
  intros s v r. unfold JSONArray.
  pose proof (skip_ws_len s) as Hws.
  destruct (skip_ws s) as [|nextchar rest] eqn:Es; [discriminate|].
  unfold len in *. cbn [List.length] in Hws.
  destruct (nextchar =? ch "]"); [intros [= <- <-]; lia|].
  intros H. apply scan_map_Scanned in H as (a & H & _).
  apply array_items_progresses in H. unfold len in *. cbn [List.length] in H. lia.
Qed.

Lemma JSONObject_progresses : progresses (JSONObject scan_value).
Proof.
  intros s v r. unfold JSONObject.
  pose proof (skip_ws_len s) as Hws.
  destruct (skip_ws s) as [|nextchar rest] eqn:Es; [discriminate|].
  unfold len in *. cbn [List.length] in Hws.
  destruct (nextchar =? RBRACE); [intros [= <- <-]; lia|].
  destruct (nextchar =? DQUOTE); [|discriminate].
  intros H. apply scan_map_Scanned in H as (a & H & _).
  apply object_pairs_progresses in H. unfold len in *. lia.
Qed.

(** With a value scanner that is never cut short on a text of at most [n]
    characters, neither are the loops. *)
Variable n : nat.
Hypothesis scan_value_fuel : forall s, (len s <= n)%nat -> scan_value s <> Starved.

Lemma array_items_fuel (fuel : nat) :
  forall s, (len s <= n)%nat -> (len s < fuel)%nat ->
    array_items scan_value fuel s <> Starved.
Proof.
  induction fuel as [|fuel IH]; intros s Hn Hfuel; [lia|].
  cbn [array_items].
  destruct (scan_value s) as [value rest| |] eqn:Ev; cbn [scan_bind];
    [|discriminate|now apply scan_value_fuel in Ev].
  apply scan_value_progresses in Ev.
  pose proof (skip_ws_len rest) as Hws.
  destruct (skip_ws rest) as [|nextchar rest'] eqn:Er; [discriminate|].
  unfold len in *. cbn [List.length] in Hws.
  destruct (nextchar =? ch "]"); [discriminate|].
  destruct (nextchar =? ch ","); [|discriminate].
  intros H. apply scan_map_Starved in H. revert H.
  pose proof (skip_ws_len rest'). unfold len in *. apply IH; lia.
Qed.

Lemma object_pairs_fuel (fuel : nat) :
  forall s, (len s <= n)%nat -> (len s < fuel)%nat ->
    object_pairs scan_value fuel s <> Starved.
Proof.
  induction fuel as [|fuel IH]; intros s Hn Hfuel; [lia|].
  cbn [object_pairs].
  destruct (scanstring s) as [key rest| |] eqn:Ek; cbn [scan_bind];
    [|discriminate|now apply scanstring_not_Starved in Ek].
  apply scanstring_progresses in Ek.
  pose proof (skip_ws_len rest) as Hws.
  destruct (skip_ws rest) as [|colon rest1] eqn:Er; [discriminate|].
  destruct (colon =? ch ":"); [|discriminate].
  pose proof (skip_ws_len rest1) as Hws1.
  unfold len in *. cbn [List.length] in *.
  destruct (scan_value (skip_ws rest1)) as [value rest2| |] eqn:Ev;
    cbn [scan_bind]; [|discriminate|apply scan_value_fuel in Ev; [easy|unfold len; lia]].
  apply scan_value_progresses in Ev.
  pose proof (skip_ws_len rest2) as Hws2.
  destruct (skip_ws rest2) as [|nextchar rest3] eqn:Er2; [discriminate|].
  unfold len in *. cbn [List.length] in *.
  destruct (nextchar =? RBRACE); [discriminate|].
  destruct (nextchar =? ch ","); [|discriminate].
  pose proof (skip_ws_len rest3) as Hws3.
  destruct (skip_ws rest3) as [|quote rest4] eqn:Er3; [discriminate|].
  destruct (quote =? DQUOTE); [|discriminate].
  unfold len in *. cbn [List.length] in *.
  intros H. apply scan_map_Starved in H. revert H. apply IH; unfold len; lia.
Qed.

Lemma JSONArray_fuel (s : pystr) :
  (len s <= n)%nat -> JSONArray scan_value s <> Starved.
Proof.
  intros Hn. unfold JSONArray.
  pose proof (skip_ws_len s) as Hws.
  destruct (skip_ws s) as [|nextchar rest] eqn:Es; [discriminate|].
  destruct (nextchar =? ch "]"); [discriminate|].
  intros H. apply scan_map_Starved in H. revert H.
  apply array_items_fuel; unfold len in *; lia.
Qed.

Lemma JSONObject_fuel (s : pystr) :
  (len s <= n)%nat -> JSONObject scan_value s <> Starved.
Proof.
  intros Hn. unfold JSONObject.
  pose proof (skip_ws_len s) as Hws.
  destruct (skip_ws s) as [|nextchar rest] eqn:Es; [discriminate|].
  destruct (nextchar =? RBRACE); [discriminate|].
  destruct (nextchar =? DQUOTE); [|discriminate].
  intros H. apply scan_map_Starved in H. revert H.
  unfold len in *. cbn [List.length] in Hws.
  apply object_pairs_fuel; unfold len in *; lia.
Qed.

End Loops.

Lemma starts_with_progress (prefix s r : pystr) :
  prefix <> [] -> starts_with prefix s = Some r -> (len r < len s)%nat.
Proof.
  intros Hp H. apply starts_with_len in H.
  destruct prefix; [contradiction|]. unfold len in *. cbn [List.length] in H. lia.
Qed.

Lemma scan_once_progresses (fuel : nat) : progresses (scan_once fuel).
Proof.
  induction fuel as [|fuel IH]; intros s v r; cbn [scan_once]; [discriminate|].
  destruct s as [|nextchar rest]; [discriminate|].
  destruct (nextchar =? DQUOTE).
  { intros H. apply scan_map_Scanned in H as (a & H & _).
    apply scanstring_progresses in H. unfold len in *. cbn [List.length]. lia. }
  destruct (nextchar =? LBRACE).
  { intros H. apply (JSONObject_progresses _ IH) in H.
    unfold len in *. cbn [List.length]. lia. }
  destruct (nextchar =? ch "[").
  { intros H. apply (JSONArray_progresses _ IH) in H.
    unfold len in *. cbn [List.length]. lia. }
  repeat match goal with
  | |- context [starts_with ?p ?s] =>
      let E := fresh "E" in
      destruct (starts_with p s) eqn:E;
      [apply starts_with_progress in E; [|discriminate];
       intros [= <- <-]; exact E|]
  | |- context [scan_number ?s] =>
      let E := fresh "E" in
      destruct (scan_number s) eqn:E;
      [apply scan_number_progresses in E; intros [= <- <-]; exact E| |]
  end; discriminate.
Qed.

(** No loop of [scan_once] is cut short when the fuel exceeds the length of
    the text. *)
Lemma scan_once_fuel (fuel : nat) :
  forall s, (len s < fuel)%nat -> scan_once fuel s <> Starved.
Proof.
  induction fuel as [|fuel IH]; intros s Hfuel; [lia|].
  cbn [scan_once].
  destruct s as [|nextchar rest]; [discriminate|].
  unfold len in Hfuel. cbn [List.length] in Hfuel.
  assert (Hvalue : forall s', (len s' <= len rest)%nat -> scan_once fuel s' <> Starved).
  { intros s' Hs'. apply IH. unfold len in *. lia. }
  destruct (nextchar =? DQUOTE).
  { intros H. apply scan_map_Starved in H. now apply scanstring_not_Starved in H. }
  destruct (nextchar =? LBRACE).
  { apply (JSONObject_fuel _ (scan_once_progresses fuel) (len rest) Hvalue). lia. }
  destruct (nextchar =? ch "[").
  { apply (JSONArray_fuel _ (scan_once_progresses fuel) (len rest) Hvalue). lia. }
  repeat match goal with
  | |- context [starts_with ?p ?s] => destruct (starts_with p s); [discriminate|]
  | |- context [scan_number ?s] =>
      let E := fresh "E" in
      destruct (scan_number s) eqn:E;
      [discriminate| |now apply scan_number_not_Starved in E]
  end; discriminate.
Qed.

(** [json_loads] is the decoder, not an approximation of it: the scan it
    starts never ends for want of fuel. *)
Lemma json_loads_never_starves (s : pystr) :
  scan_once (S (len s)) (skip_ws s) <> Starved.
Proof. apply scan_once_fuel. pose proof (skip_ws_len s). lia. Qed.

(** ** Dictionaries *)

Lemma pystr_eqb_eq (a b : pystr) : pystr_eqb a b = true <-> a = b.
Proof. unfold pystr_eqb. destruct (list_eq_dec N.eq_dec a b); split; congruence. Qed.

Lemma pystr_eqb_refl (a : pystr) : pystr_eqb a a = true.
Proof. now apply pystr_eqb_eq. Qed.

Lemma pystr_eqb_neq (a b : pystr) : a <> b -> pystr_eqb a b = false.
Proof. unfold pystr_eqb. destruct (list_eq_dec N.eq_dec a b); congruence. Qed.

Lemma dict_lookup_setitem_same (d : pydict) (key : pystr) (value : pyobj) :
  dict_lookup (dict_setitem d key value) key = Some value.
Proof.
  induction d as [|[k v] d IH]; cbn.
  - now rewrite pystr_eqb_refl.
  - destruct (pystr_eqb k key) eqn:E; cbn; rewrite E; [reflexivity | exact IH].
Qed.

Lemma dict_lookup_setitem_other (d : pydict) (key key' : pystr) (value : pyobj) :
  key <> key' ->
  dict_lookup (dict_setitem d key value) key' = dict_lookup d key'.
Proof.
  intros Hne. induction d as [|[k v] d IH]; cbn.
  - now rewrite (pystr_eqb_neq _ _ Hne).
  - destruct (pystr_eqb k key) eqn:E; cbn.
    + apply pystr_eqb_eq in E. subst k. now rewrite (pystr_eqb_neq _ _ Hne).
    + now rewrite IH.
Qed.

(** ** From the reply to the record *)

Lemma sanitized_clean (t : pystr) : sanitized (clean_text_for_json t).
Proof.
  apply clean_text_for_json_fixed, clean_text_for_json_json_safe.
Qed.

(** A literal between two sanitized literals is sanitized exactly when it
    is itself. *)
Lemma sanitized_between (a t b : pystr) :
  sanitized a -> sanitized b -> (sanitized (a ++ t ++ b) <-> sanitized t).
Proof.
  unfold sanitized. intros Ha Hb.
  rewrite !clean_text_for_json_app, Ha, Hb. split.
  - intros H. apply app_inv_head in H. now apply app_inv_tail in H.
  - now intros ->.
Qed.

Lemma get_method_raises (o : pyobj) (e : exn) :
  get_method o = Raised e -> sanitized (exn_str e).
Proof.
  destruct o; cbn; intros [= <-]; reflexivity.
Qed.

Section Record.

Variable rt : runtime.

(** What [structure_response] returns has both fields, each sanitized;
    what it raises has a sanitized description. *)
Lemma structure_response_Returned (message_text : pystr) (d : pydict) :
  structure_response rt message_text = Returned d ->
  exists thoughts response,
    structured d thoughts response /\ sanitized thoughts /\ sanitized response.
Proof.
  unfold structure_response.
  destruct (get_method _) as [d0|e]; [|discriminate].
  intros [= <-]. eexists _, _. repeat split.
  - rewrite dict_lookup_setitem_other by discriminate.
    apply dict_lookup_setitem_same.
  - apply dict_lookup_setitem_same.
  - apply sanitized_clean.
  - apply sanitized_clean.
Qed.

Lemma structure_response_Raised (message_text : pystr) (e : exn) :
  structure_response rt message_text = Raised e -> sanitized (exn_str e).
Proof.
  unfold structure_response.
  destruct (get_method _) as [d0|e0] eqn:E; [discriminate|].
  intros [= <-]. now apply get_method_raises in E.
Qed.

End Record.

(** ** Agent.process *)

Lemma fallback_response_structured (e : exn) :
  structured (fallback_response e) (py "Error occurred during processing") (fault_text e).
Proof. split; reflexivity. Qed.

Lemma fault_text_sanitized (e : exn) :
  sanitized (fault_text e) <-> sanitized (exn_str e).
Proof. unfold fault_text. apply sanitized_between; reflexivity. Qed.

Lemma history_grew_refl (self : agent_key) (w : world) : history_grew self [] w w.
Proof.
  intros k. repeat split. destruct k, self; now rewrite app_nil_r.
Qed.

Lemma history_grew_log_ui (self : agent_key) (entries : list ConversationEntry)
    (ev : ui_event) (w w' : world) :
  history_grew self entries w w' -> history_grew self entries w (log_ui ev w').
Proof. intros H k. exact (H k). Qed.

Lemma history_grew_log_request (self : agent_key) (entries : list ConversationEntry)
    (req : request) (w w' : world) :
  history_grew self entries w w' -> history_grew self entries w (log_request req w').
Proof. intros H k. exact (H k). Qed.

Lemma history_grew_log_entry (self : agent_key) (entries : list ConversationEntry)
    (entry : ConversationEntry) (w w' : world) :
  history_grew self entries w w' ->
  history_grew self (entries ++ [entry]) w (log_entry self entry w').
Proof.
  intros H k. destruct (H k) as (Hn & Hr & Hh).
  destruct k, self; cbn in *; rewrite ?Hn, ?Hr, ?Hh, ?app_assoc; auto.
Qed.

Section Process.

Variable rt : runtime.
Variable env : environment.

(** The three ways through the [try] block: the call raises; the reply
    parses to something that is not an object; a record is built, logged
    and returned. *)
Lemma process_try_cases (self : agent_key) (input_text : pystr) (w : world) :
  let this := agents (system w) self in
  let req := create_request this input_text in
  (exists e,
      messages_create env (requests w) req = Raised e /\
      process_try rt env self input_text w = (Raised e, log_request req w)) \/
  (exists text e,
      messages_create env (requests w) req = Returned text /\
      structure_response rt text = Raised e /\
      process_try rt env self input_text w = (Raised e, log_request req w)) \/
  (exists text d content,
      messages_create env (requests w) req = Returned text /\
      structure_response rt text = Returned d /\
      dict_lookup d (py "response") = Some content /\
      process_try rt env self input_text w =
        (Returned d,
         log_entry self {| entry_role := name this; entry_content := content |}
           (log_request req w))).
Proof.
  intros this req.
  unfold process_try, bind, get_agent, create_message, lift, history_append, ret.
  fold this. fold req.
  destruct (messages_create env (requests w) req) as [text|e] eqn:Ecall.
  2:{ left. eauto. }
  right. destruct (structure_response rt text) as [d|e] eqn:Es.
  2:{ left. eauto. }
  right. destruct (structure_response_Returned rt _ _ Es) as (t & r & [_ Hr] & _).
  exists text, d, (PStr r). unfold dict_getitem. rewrite Hr. auto.
Qed.

(** [process] returns whatever its [try] block returns, and the record of
    the [except] block when the [try] block raises. *)
Lemma process_of_try (self : agent_key) (input_text : pystr) (w : world) :
  process rt env self input_text w =
  match process_try rt env self input_text w with
  | (Returned d, w') => (Returned d, w')
  | (Raised e, w') =>
      (Returned (fallback_response e),
       log_ui (StError (py "Processing error: " ++ exn_str e)) w')
  end.
Proof.
  unfold process, try_except.
  destruct (process_try rt env self input_text w) as [[d|e] w']; reflexivity.
Qed.

(** Everything the workflow relies on, in one statement. *)
Lemma process_returns (self : agent_key) (input_text : pystr) (w : world) :
  exists d w' thoughts response entries,
    process rt env self input_text w = (Returned d, w') /\
    structured d thoughts response /\
    requests w' = requests w ++ [create_request (agents (system w) self) input_text] /\
    history_grew self entries w w'.
Proof.
  rewrite process_of_try.
  destruct (process_try_cases self input_text w)
    as [(e & _ & ->) | [(text & e & _ & _ & ->) | (text & d & content & _ & Hs & _ & ->)]].
  - exists (fallback_response e). eexists. eexists _, _, [].
    split; [reflexivity|]. split; [apply fallback_response_structured|].
    split; [reflexivity|].
    apply history_grew_log_ui, history_grew_log_request, history_grew_refl.
  - exists (fallback_response e). eexists. eexists _, _, [].
    split; [reflexivity|]. split; [apply fallback_response_structured|].
    split; [reflexivity|].
    apply history_grew_log_ui, history_grew_log_request, history_grew_refl.
  - destruct (structure_response_Returned rt _ _ Hs) as (t & r & Hd & _).
    exists d. eexists. exists t, r. eexists.
    split; [reflexivity|]. split; [exact Hd|]. split; [reflexivity|].
    apply history_grew_log_entry, history_grew_log_request, history_grew_refl.
Qed.

Lemma process_fault (self : agent_key) (input_text : pystr) (w : world) (e : exn) :
  let req := create_request (agents (system w) self) input_text in
  messages_create env (requests w) req = Raised e ->
  process rt env self input_text w =
    (Returned (fallback_response e),
     log_ui (StError (py "Processing error: " ++ exn_str e)) (log_request req w)).
Proof.
  intros req Hcall. rewrite process_of_try.
  destruct (process_try_cases self input_text w)
    as [(e' & H & ->) | [(text & e' & H & _) | (text & d & content & H & _)]];
    fold req in H; rewrite Hcall in H; try discriminate.
  now injection H as <-.
Qed.

Lemma process_reply (self : agent_key) (input_text : pystr) (w : world) (text : pystr) :
  let this := agents (system w) self in
  let req := create_request this input_text in
  messages_create env (requests w) req = Returned text ->
  match structure_response rt text with
  | Raised e =>
      process rt env self input_text w =
        (Returned (fallback_response e),
         log_ui (StError (py "Processing error: " ++ exn_str e)) (log_request req w))
  | Returned d =>
      exists content,
        dict_lookup d (py "response") = Some content /\
        process rt env self input_text w =
          (Returned d,
           log_entry self {| entry_role := name this; entry_content := content |}
             (log_request req w))
  end.
Proof.
  intros this req Hcall. rewrite process_of_try.
  destruct (process_try_cases self input_text w)
    as [(e' & H & _) | [(text' & e' & H & Hs & ->) | (text' & d & content & H & Hs & Hc & ->)]];
    fold this in H; fold req in H; rewrite Hcall in H; try discriminate;
    injection H as <-; rewrite Hs.
  - reflexivity.
  - eauto.
Qed.

End Process.

(** ** MultiAgentSystem.run_workflow *)

Lemma embeds_intro (before part after : pystr) : embeds (before ++ part ++ after) part.
Proof. now exists before, after. Qed.

Lemma embeds_refl (part : pystr) : embeds part part.
Proof. exists [], []. now rewrite app_nil_r. Qed.

Lemma embeds_app_l (a b part : pystr) : embeds a part -> embeds (a ++ b) part.
Proof. intros (x & y & ->). exists x, (y ++ b). now rewrite <- !app_assoc. Qed.

Lemma embeds_app_r (a b part : pystr) : embeds b part -> embeds (a ++ b) part.
Proof. intros (x & y & ->). exists (a ++ x), y. now rewrite <- !app_assoc. Qed.

(** Finds [part] among the pieces of a concatenation. *)
Ltac embeds_search :=
  solve [ apply embeds_refl
        | apply embeds_app_l; embeds_search
        | apply embeds_app_r; embeds_search ].

Section Workflow.

Variable rt : runtime.
Variable env : environment.

Lemma format_response_structured (d : pydict) (thoughts response : pystr) (w : world) :
  structured d thoughts response ->
  format_response rt d w = (Returned response, w).
Proof.
  intros [_ Hr]. unfold format_response, bind, lift, dict_getitem, ret.
  now rewrite Hr.
Qed.

(** The [try] block, stage by stage: a status line that fails ends it
    with what the earlier stages did to the world; a stage never does. *)
Lemma run_workflow_try_cases (task : pystr) (w : world) :
  match status_write env researcher_status with
  | Some e => run_workflow_try rt env task w = (Raised e, w)
  | None =>
    exists o1 w1 t1 r1,
      process rt env researcher (researcher_input task)
        (log_ui (StatusWrite researcher_status) w) = (Returned o1, w1) /\
      structured o1 t1 r1 /\
      match status_write env writer_status with
      | Some e => run_workflow_try rt env task w = (Raised e, w1)
      | None =>
        exists o2 w2 t2 r2,
          process rt env writer (writer_input task r1)
            (log_ui (StatusWrite writer_status) w1) = (Returned o2, w2) /\
          structured o2 t2 r2 /\
          match status_write env critic_status with
          | Some e => run_workflow_try rt env task w = (Raised e, w2)
          | None =>
            exists o3 w3 t3 r3,
              process rt env critic (critic_input task r2)
                (log_ui (StatusWrite critic_status) w2) = (Returned o3, w3) /\
              structured o3 t3 r3 /\
              run_workflow_try rt env task w =
                (Returned (three_results o1 o2 o3),
                 log_ui (StatusUpdate (py "Workflow completed!") (py "complete")) w3)
          end
      end
  end.
Proof.
  unfold run_workflow_try, do_status_write.
  destruct (status_write env researcher_status) as [e|]; [reflexivity|].
  destruct (process_returns rt env researcher (researcher_input task)
              (log_ui (StatusWrite researcher_status) w))
    as (o1 & w1 & t1 & r1 & es1 & Hp1 & Hs1 & _).
  exists o1, w1, t1, r1. split; [exact Hp1|]. split; [exact Hs1|].
  destruct (status_write env writer_status) as [e|].
  { unfold bind at 1. unfold tell at 1. unfold bind at 1. rewrite Hp1. reflexivity. }
  destruct (process_returns rt env writer (writer_input task r1)
              (log_ui (StatusWrite writer_status) w1))
    as (o2 & w2 & t2 & r2 & es2 & Hp2 & Hs2 & _).
  exists o2, w2, t2, r2. split; [exact Hp2|]. split; [exact Hs2|].
  destruct (status_write env critic_status) as [e|].
  { unfold bind, tell. rewrite Hp1.
    rewrite (format_response_structured _ _ _ _ Hs1). rewrite Hp2. reflexivity. }
  destruct (process_returns rt env critic (critic_input task r2)
              (log_ui (StatusWrite critic_status) w2))
    as (o3 & w3 & t3 & r3 & es3 & Hp3 & Hs3 & _).
  exists o3, w3, t3, r3. split; [exact Hp3|]. split; [exact Hs3|].
  unfold bind, tell. rewrite Hp1.
  rewrite (format_response_structured _ _ _ _ Hs1). rewrite Hp2.
  rewrite (format_response_structured _ _ _ _ Hs2). rewrite Hp3.
  reflexivity.
Qed.

Lemma follows_log_ui (w w' : world) (asked : list request) (ev : ui_event) :
  follows w asked w' -> follows w asked (log_ui ev w').
Proof. intros H. exact H. Qed.

Lemma follows_refl (w : world) : follows w [] w.
Proof. split; [now rewrite app_nil_r | auto]. Qed.

Lemma create_request_follows (w w' : world) (asked : list request)
    (k : agent_key) (input_text : pystr) :
  follows w asked w' ->
  create_request (agents (system w') k) input_text =
  create_request (agents (system w) k) input_text.
Proof.
  intros [_ H]. destruct (H k) as [Hn Hr].
  unfold create_request, get_system_prompt. now rewrite Hn, Hr.
Qed.

(** One stage, told from the world [w] the run started in. *)
Lemma process_step (self : agent_key) (input_text : pystr)
    (w w0 : world) (asked : list request) :
  follows w asked w0 ->
  let req := create_request (agents (system w) self) input_text in
  exists d w1 thoughts response,
    process rt env self input_text w0 = (Returned d, w1) /\
    structured d thoughts response /\
    follows w (asked ++ [req]) w1 /\
    (forall e, messages_create env (requests w ++ asked) req = Raised e ->
               d = fallback_response e) /\
    (forall text, messages_create env (requests w ++ asked) req = Returned text ->
                  d = record_made rt text).
Proof.
  intros Hf req.
  pose proof (create_request_follows _ _ _ self input_text Hf) as Hreq. fold req in Hreq.
  destruct Hf as [Hasked Hid].
  destruct (process_returns rt env self input_text w0)
    as (d & w1 & t & r & es & Hp & Hs & Hq & Hg).
  exists d, w1, t, r. split; [exact Hp|]. split; [exact Hs|]. split; [|split].
  - split.
    + now rewrite Hq, Hasked, Hreq, app_assoc.
    + intros k. destruct (Hg k) as (Hn & Hr & _). destruct (Hid k) as [Hn0 Hr0].
      split; congruence.
  - intros e He. rewrite <- Hasked, <- Hreq in He.
    rewrite (process_fault rt env self input_text w0 e He) in Hp. congruence.
  - intros text Ht. rewrite <- Hasked, <- Hreq in Ht.
    pose proof (process_reply rt env self input_text w0 text Ht) as H.
    unfold record_made.
    destruct (structure_response rt text) as [d0|e0].
    + destruct H as (content & _ & H). rewrite H in Hp. congruence.
    + rewrite H in Hp. congruence.
Qed.

(** When every status line goes through, the three stages run in order,
    each on the response of the one before. *)
Lemma run_workflow_completes (task : pystr) (w : world) :
  status_never_fails env ->
  exists o1 o2 o3 t1 r1 t2 r2 t3 r3 w',
    let q1 := create_request (agents (system w) researcher) (researcher_input task) in
    let q2 := create_request (agents (system w) writer) (writer_input task r1) in
    let q3 := create_request (agents (system w) critic) (critic_input task r2) in
    run_workflow rt env task w = (Returned (three_results o1 o2 o3), w') /\
    (structured o1 t1 r1 /\ structured o2 t2 r2 /\ structured o3 t3 r3) /\
    requests w' = requests w ++ [q1; q2; q3] /\
    ((forall e, messages_create env (requests w) q1 = Raised e ->
                o1 = fallback_response e) /\
     (forall e, messages_create env (requests w ++ [q1]) q2 = Raised e ->
                o2 = fallback_response e) /\
     (forall e, messages_create env (requests w ++ [q1; q2]) q3 = Raised e ->
                o3 = fallback_response e)) /\
    ((forall text, messages_create env (requests w) q1 = Returned text ->
                   o1 = record_made rt text) /\
     (forall text, messages_create env (requests w ++ [q1]) q2 = Returned text ->
                   o2 = record_made rt text) /\
     (forall text, messages_create env (requests w ++ [q1; q2]) q3 = Returned text ->
                   o3 = record_made rt text)).
Proof.
  intros Hui.
  pose proof (run_workflow_try_cases task w) as Htry.
  rewrite (Hui researcher_status), (Hui writer_status), (Hui critic_status) in Htry.
  destruct Htry as (o1 & w1 & t1 & r1 & Hp1 & Hs1 &
                    o2 & w2 & t2 & r2 & Hp2 & Hs2 &
                    o3 & w3 & t3 & r3 & Hp3 & Hs3 & Htry).
  destruct (process_step researcher (researcher_input task) w
              (log_ui (StatusWrite researcher_status) w) []
              (follows_log_ui _ _ _ _ (follows_refl w)))
    as (o1' & w1' & _ & _ & Hp1' & _ & Hf1 & He1 & Ht1).
  rewrite Hp1 in Hp1'. injection Hp1' as <- <-.
  destruct (process_step writer (writer_input task r1) w
              (log_ui (StatusWrite writer_status) w1) _
              (follows_log_ui _ _ _ _ Hf1))
    as (o2' & w2' & _ & _ & Hp2' & _ & Hf2 & He2 & Ht2).
  rewrite Hp2 in Hp2'. injection Hp2' as <- <-.
  destruct (process_step critic (critic_input task r2) w
              (log_ui (StatusWrite critic_status) w2) _
              (follows_log_ui _ _ _ _ Hf2))
    as (o3' & w3' & _ & _ & Hp3' & _ & Hf3 & He3 & Ht3).
  rewrite Hp3 in Hp3'. injection Hp3' as <- <-.
  rewrite app_nil_r in He1, Ht1. cbn [app] in *.
  exists o1, o2, o3, t1, r1, t2, r2, t3, r3.
  eexists. cbv zeta.
  split; [unfold run_workflow, try_except; rewrite Htry; reflexivity|].
  split; [auto|].
  split; [exact (proj1 Hf3)|].
  split; auto.
Qed.

End Workflow.

(** ** A well-formed reply, in general *)

Lemma lstrip_nonspace (c : N) (s : pystr) : isspace c = false -> lstrip (c :: s) = c :: s.
Proof. intros H. cbn. now rewrite H. Qed.

Lemma rstrip_nonspace (s : pystr) (c : N) : isspace c = false -> rstrip (s ++ [c]) = s ++ [c].
Proof.
  intros H. unfold rstrip. rewrite rev_app_distr. cbn [rev app].
  rewrite (lstrip_nonspace _ _ H). cbn [rev]. now rewrite rev_involutive.
Qed.

Lemma upto_last_end (c : N) (m : pystr) : upto_last c (m ++ [c]) = Some (m ++ [c]).
Proof.
  induction m as [|x m IH]; cbn.
  - now rewrite N.eqb_refl.
  - now rewrite IH.
Qed.

Lemma plain_json_safe (a : pystr) : Forall plain a -> Forall json_safe a.
Proof. apply Forall_impl. intros c [H _]. exact H. Qed.

(** A string of plain characters scans to itself. *)
Lemma scanstring_plain (a rest : pystr) :
  Forall plain a -> scanstring (a ++ DQUOTE :: rest) = Scanned a rest.
Proof.
  induction 1 as [|c a [[Hlo Hhi] [Hq Hb]] _ IH]; cbn [app scanstring].
  - reflexivity.
  - destruct (N.eqb_spec c DQUOTE); [contradiction|].
    destruct (N.eqb_spec c BACKSLASH); [contradiction|].
    destruct (N.ltb_spec c 32); [lia|].
    now rewrite IH.
Qed.

Lemma reply_of_shape (a b : pystr) :
  exists middle, reply_of a b = LBRACE :: middle ++ [RBRACE].
Proof.
  unfold reply_of.
  exists (quoted "thoughts" ++ py ": " ++ [DQUOTE] ++ a ++ [DQUOTE] ++ py ", " ++
          quoted "response" ++ py ": " ++ [DQUOTE] ++ b ++ [DQUOTE]).
  change (py "{") with [LBRACE]. change (py "}") with [RBRACE].
  now rewrite <- !app_assoc.
Qed.

Lemma reply_of_sanitized (a b : pystr) :
  Forall plain a -> Forall plain b -> sanitized (reply_of a b).
Proof.
  intros Ha Hb.
  apply plain_json_safe, clean_text_for_json_fixed in Ha, Hb.
  unfold sanitized, reply_of.
  rewrite !clean_text_for_json_app, Ha, Hb. reflexivity.
Qed.

(** A quoted plain text is scanned as that text. *)
Lemma scan_once_plain_string (fuel : nat) (a rest : pystr) :
  Forall plain a ->
  scan_once (S fuel) (DQUOTE :: a ++ DQUOTE :: rest) = Scanned (PStr a) rest.
Proof.
  intros Ha. cbn [scan_once].
  change (DQUOTE =? DQUOTE) with true. cbv iota.
  now rewrite (scanstring_plain a rest Ha).
Qed.

Section TwoFields.

Variable scan_value : pystr -> scan pyobj.
Hypothesis scan_value_string :
  forall a rest, Forall plain a ->
    scan_value (DQUOTE :: a ++ DQUOTE :: rest) = Scanned (PStr a) rest.

(** The two pairs of the reply, from the first key to the closing brace. *)
Lemma object_pairs_reply_of (fuel : nat) (a b : pystr) :
  Forall plain a -> Forall plain b ->
  object_pairs scan_value (S (S fuel))
    (py "thoughts" ++ DQUOTE :: py ": " ++ DQUOTE :: a ++ DQUOTE :: py ", " ++
     DQUOTE :: py "response" ++ DQUOTE :: py ": " ++ DQUOTE :: b ++ [DQUOTE; RBRACE]) =
  Scanned [(py "thoughts", PStr a); (py "response", PStr b)] [].
Proof.
  intros Ha Hb. cbn.
  rewrite (scan_value_string a _ Ha). cbn.
  rewrite (scan_value_string b _ Hb). cbn.
  reflexivity.
Qed.

End TwoFields.

Lemma json_loads_reply_of (a b : pystr) :
  Forall plain a -> Forall plain b ->
  json_loads (reply_of a b) =
  Loaded (PDict [(py "thoughts", PStr a); (py "response", PStr b)]).
Proof.
  intros Ha Hb.
  set (body := py "thoughts" ++ DQUOTE :: py ": " ++ DQUOTE :: a ++ DQUOTE :: py ", " ++
               DQUOTE :: py "response" ++ DQUOTE :: py ": " ++ DQUOTE :: b ++
               [DQUOTE; RBRACE]).
  assert (Hshape : reply_of a b = LBRACE :: DQUOTE :: body).
  { unfold reply_of, quoted, body. rewrite <- !app_assoc. reflexivity. }
  assert (Hlen : exists fuel, len body = S fuel).
  { unfold body. eexists. reflexivity. }
  destruct Hlen as [fuel Hlen].
  assert (Hscan : scan_once (S (S (S (S fuel)))) (LBRACE :: DQUOTE :: body) =
                  Scanned (PDict [(py "thoughts", PStr a); (py "response", PStr b)]) []).
  { change (scan_once (S (S (S (S fuel)))) (LBRACE :: DQUOTE :: body))
      with (scan_map (fun pairs => PDict (dict_of_pairs pairs))
              (object_pairs (scan_once (S (S (S fuel)))) (S (len body)) body)).
    rewrite Hlen. unfold body.
    rewrite (object_pairs_reply_of _ (scan_once_plain_string _) fuel a b Ha Hb).
    reflexivity. }
  unfold json_loads. rewrite Hshape.
  change (len (LBRACE :: DQUOTE :: body)) with (S (S (len body))).
  change (skip_ws (LBRACE :: DQUOTE :: body)) with (LBRACE :: DQUOTE :: body).
  rewrite Hlen, Hscan. reflexivity.
Qed.

(** The round trip for every pair of plain texts. *)
Lemma round_trip_plain (rt : runtime) (a b : pystr) :
  Forall plain a -> Forall plain b ->
  structure_response rt (reply_of a b) =
  Returned [(py "thoughts", PStr a); (py "response", PStr b)].
Proof.
  intros Ha Hb. unfold structure_response.
  destruct (reply_of_shape a b) as [middle Hshape].
  assert (Hstrip : strip (reply_of a b) = reply_of a b).
  { unfold strip. rewrite Hshape. rewrite (lstrip_nonspace LBRACE) by reflexivity.
    change (LBRACE :: middle ++ [RBRACE]) with ((LBRACE :: middle) ++ [RBRACE]).
    now apply rstrip_nonspace. }
  rewrite Hstrip.
  assert (Hsearch : re_search_braces (reply_of a b) = Some (reply_of a b)).
  { rewrite Hshape. cbn [re_search_braces]. rewrite N.eqb_refl.
    now rewrite upto_last_end. }
  rewrite Hsearch.
  rewrite (reply_of_sanitized a b Ha Hb).
  rewrite (json_loads_reply_of a b Ha Hb).
  cbn [get_method].
  set (d := [(py "thoughts", PStr a); (py "response", PStr b)]).
  replace (dict_get d (py "thoughts") (PStr [])) with (PStr a) by reflexivity.
  cbn [py_str]. rewrite (clean_text_for_json_fixed a (plain_json_safe a Ha)).
  replace (dict_setitem d (py "thoughts") (PStr a)) with d by reflexivity.
  replace (dict_get d (py "response") (PStr [])) with (PStr b) by reflexivity.
  cbn [py_str]. rewrite (clean_text_for_json_fixed b (plain_json_safe b Hb)).
  reflexivity.
Qed.

(** ** The model on concrete texts *)

Example clean_text_for_json_mixed :
  clean_text_for_json ([7] ++ py "a" ++ [LF] ++ py "b" ++ [TAB; 233; 0x1f50d; DEL]) =
  py "a\nb\t" ++ [DEL].
Proof. reflexivity. Qed.

Example json_loads_array :
  json_loads (py "[1, -20, true, null, [], {}]") =
  Loaded (PList [PInt 1; PInt (-20); PBool true; PNone; PList []; PDict []]).
Proof. reflexivity. Qed.

Example json_loads_escapes :
  json_loads (quoted "a\n\u00e9\ud83d\ude00") = Loaded (PStr [97; LF; 233; 0x1f600]).
Proof. reflexivity. Qed.

Example json_loads_trailing_comma : json_loads (py "[1,]") = JSONDecodeError.
Proof. reflexivity. Qed.

Example json_loads_leading_zero : json_loads (py "01") = JSONDecodeError.
Proof. reflexivity. Qed.

Example py_str_nested :
  py_str example_runtime
    (PList [PInt 1; PStr (py "it's"); PDict [(py "k", PNone)]; PStr [LF]]) =
  py "[1, " ++ quoted "it's" ++ py ", {'k': None}, '\n']".
Proof. reflexivity. Qed.

Example re_search_braces_greedy :
  re_search_braces (py "a}b{c{d}e}f{") = Some (py "{c{d}e}").
Proof. reflexivity. Qed.

(** Scenario C: the object is found inside the prose. *)
Example structure_response_in_prose (rt : runtime) :
  structure_response rt reply_in_prose =
  Returned [(py "thoughts", PStr (py "x")); (py "response", PStr (py "y"))].
Proof. vm_compute. reflexivity. Qed.

(** Prose without an object is kept as the response. *)
Example structure_response_prose (rt : runtime) :
  structure_response rt (py "  No JSON today.  ") =
  Returned [(py "thoughts", PStr (py "Processed the input and structured the response"));
            (py "response", PStr (py "No JSON today."))].
Proof. vm_compute. reflexivity. Qed.

(** An object written over several lines is sanitized before it is parsed:
    its line breaks become backslash escapes between the tokens, the parse
    fails, and the whole text becomes the response. *)
Example structure_response_on_lines (rt : runtime) :
  structure_response rt reply_on_lines =
  Returned [(py "thoughts", PStr (py "Processed the input and structured the response"));
            (py "response", PStr (clean_text_for_json reply_on_lines))].
Proof. vm_compute. reflexivity. Qed.

(** * The sanitizer *)

(** C6, as the code has it.  Every character of [clean_text_for_json t] has
    a code point from 32 to 127: none below 32, none outside ASCII.  Character
    by character, newline, carriage return and tab become their two-character
    escapes, the other characters below 32 and those above 127 are dropped,
    and the rest, DEL (127) included, is kept. *)
Theorem sanitize_output_range (t : pystr) :
  Forall json_safe (clean_text_for_json t) /\
  clean_text_for_json t = flat_map clean_char t.
Proof.
  split; [apply clean_text_for_json_json_safe | apply clean_text_for_json_flat_map].
Qed.

(** C6 as stated fails: DEL is not printable, and the sanitizer keeps it. *)
Lemma sanitize_keeps_DEL :
  ~ Forall printable_ascii (clean_text_for_json [DEL]).
Proof.
  intros H. change (clean_text_for_json [DEL]) with [DEL] in H.
  apply Forall_inv in H. unfold printable_ascii, DEL in H. lia.
Qed.

(** C7.  Sanitizing is idempotent:
    [clean_text_for_json (clean_text_for_json t) = clean_text_for_json t]. *)
Theorem sanitize_idempotent (t : pystr) :
  clean_text_for_json (clean_text_for_json t) = clean_text_for_json t.
Proof. apply sanitized_clean. Qed.

(** * The record made from a reply *)

(** C8.  The reply that is exactly the JSON object with thoughts "a" and
    response "b" gives the record with thoughts "a" and response "b". *)
Theorem round_trip (rt : runtime) :
  structure_response rt reply_a_b =
  Returned [(py "thoughts", PStr (py "a")); (py "response", PStr (py "b"))].
Proof. vm_compute. reflexivity. Qed.

(** C3, at the reply [42].  The text is valid JSON and not an object:
    [json.loads] returns an [int], [response_json.get] raises
    [AttributeError], and [process] answers with the record of its [except]
    block, not with the record built from the text. *)
Theorem scalar_reply_takes_error_path (rt : runtime) (self : agent_key) (input_text : pystr) :
  let e := Exception "AttributeError" (py "'int' object has no attribute 'get'") in
  json_loads (py "42") = Loaded (PInt 42) /\
  structure_response rt (py "42") = Raised e /\
  fst (process rt (replying (py "42")) self input_text fresh_world) =
    Returned (fallback_response e) /\
  fallback_response e <>
    [(py "thoughts", PStr (py "Processed the input and structured the response"));
     (py "response", PStr (py "42"))].
Proof.
  cbv zeta.
  assert (Hs : structure_response rt (py "42") =
               Raised (Exception "AttributeError" (py "'int' object has no attribute 'get'")))
    by reflexivity.
  split; [reflexivity|]. split; [exact Hs|]. split.
  - pose proof (process_reply rt (replying (py "42")) self input_text fresh_world
                  (py "42") eq_refl) as H.
    rewrite Hs in H. rewrite H. reflexivity.
  - discriminate.
Qed.

(** * Agent.process *)

(** C1.  Whatever the model replies (a JSON object, JSON inside prose,
    prose, nothing, anything else) and even when the call raises, [process]
    returns to its caller, and the record it returns has the thoughts field
    and the response field, both holding text.  For the reply [text] the
    record is [record_made rt text]: the one built from the text, or the
    error record when building it raised. *)
Theorem process_always_structured (rt : runtime) (env : environment)
    (self : agent_key) (input_text : pystr) (w : world) :
  exists d w' thoughts response,
    process rt env self input_text w = (Returned d, w') /\
    dict_lookup d (py "thoughts") = Some (PStr thoughts) /\
    dict_lookup d (py "response") = Some (PStr response) /\
    (forall text,
        messages_create env (requests w)
          (create_request (agents (system w) self) input_text) = Returned text ->
        d = record_made rt text).
Proof.
  destruct (process_returns rt env self input_text w)
    as (d & w' & t & r & _ & Hp & [Ht Hr] & _).
  exists d, w', t, r. repeat split; try assumption.
  intros text Hcall.
  pose proof (process_reply rt env self input_text w text Hcall) as H.
  unfold record_made. destruct (structure_response rt text) as [d0|e0].
  - destruct H as (content & _ & H). congruence.
  - congruence.
Qed.

(** C9, as the code has it.  The thoughts field of the returned record is
    always sanitized.  The response field is sanitized whenever the model
    call returned; when the call raised [e] it is the apology written around
    [str(e)], taken as it is, and is sanitized exactly when [str(e)] is. *)
Theorem process_fields_sanitized (rt : runtime) (env : environment)
    (self : agent_key) (input_text : pystr) (w : world) :
  let req := create_request (agents (system w) self) input_text in
  exists d w' thoughts response,
    process rt env self input_text w = (Returned d, w') /\
    structured d thoughts response /\
    sanitized thoughts /\
    (forall text, messages_create env (requests w) req = Returned text ->
                  sanitized response) /\
    (forall e, messages_create env (requests w) req = Raised e ->
               response = fault_text e /\
               (sanitized response <-> sanitized (exn_str e))).
Proof.
  intros req. rewrite process_of_try.
  destruct (process_try_cases rt env self input_text w)
    as [(e & Hc & ->) | [(text & e & Hc & Hs & ->) | (text & d & content & Hc & Hs & _ & ->)]];
    fold req in Hc.
  - exists (fallback_response e). eexists. eexists _, (fault_text e).
    split; [reflexivity|]. split; [apply fallback_response_structured|].
    split; [reflexivity|]. split.
    + intros text Ht. congruence.
    + intros e' He'. assert (e' = e) as -> by congruence.
      split; [reflexivity | apply fault_text_sanitized].
  - exists (fallback_response e). eexists. eexists _, (fault_text e).
    split; [reflexivity|]. split; [apply fallback_response_structured|].
    split; [reflexivity|]. split.
    + intros _ _. apply fault_text_sanitized.
      now apply structure_response_Raised in Hs.
    + intros e' He'. congruence.
  - destruct (structure_response_Returned rt _ _ Hs) as (t & r & Hd & Hst & Hsr).
    exists d. eexists. exists t, r.
    split; [reflexivity|]. split; [exact Hd|]. split; [exact Hst|]. split.
    + intros _ _. exact Hsr.
    + intros e' He'. congruence.
Qed.

(** C9 as stated fails on the fault path: a fault whose description has a
    line break comes back inside the response as it is. *)
Lemma fault_response_not_sanitized :
  fst (process example_runtime (failing two_line_fault) researcher (py "task") fresh_world) =
    Returned (fallback_response two_line_fault) /\
  ~ fields_sanitized (fallback_response two_line_fault).
Proof.
  split; [reflexivity|].
  intros (t & r & [_ Hr] & _ & Hsan).
  injection Hr as <-. revert Hsan. vm_compute. discriminate.
Qed.

(** C10.  When the model call returns and a record is built from the reply,
    the [try] block of [process] completes: it returns that record and the
    agent's history has grown by exactly one entry, with the agent's name and
    the response of the returned record, and no other history has changed.
    Whenever the block completes this is what it has done; when the block
    raises, in particular when the model call does, no history has changed
    at all. *)
Theorem process_history (rt : runtime) (env : environment)
    (self : agent_key) (input_text : pystr) (w : world) :
  let this := agents (system w) self in
  let req := create_request this input_text in
  (forall text d,
      messages_create env (requests w) req = Returned text ->
      structure_response rt text = Returned d ->
      exists content,
        dict_lookup d (py "response") = Some content /\
        process_try rt env self input_text w =
          (Returned d,
           log_entry self {| entry_role := name this; entry_content := content |}
             (log_request req w)) /\
        process rt env self input_text w =
          (Returned d,
           log_entry self {| entry_role := name this; entry_content := content |}
             (log_request req w))) /\
  (forall d w1,
      process_try rt env self input_text w = (Returned d, w1) ->
      exists content,
        process rt env self input_text w = (Returned d, w1) /\
        dict_lookup d (py "response") = Some content /\
        history_grew self
          [{| entry_role := name (agents (system w) self); entry_content := content |}]
          w w1) /\
  (forall e w1,
      process_try rt env self input_text w = (Raised e, w1) ->
      exists w2,
        process rt env self input_text w = (Returned (fallback_response e), w2) /\
        system w2 = system w) /\
  (forall e,
      messages_create env (requests w) (create_request (agents (system w) self) input_text)
        = Raised e ->
      exists w1, process_try rt env self input_text w = (Raised e, w1)).
Proof.
  intros this req. rewrite process_of_try.
  destruct (process_try_cases rt env self input_text w)
    as [(e & Hc & ->) | [(text & e & Hc & Hs & ->) | (text & d & content & Hc & Hs & Hl & ->)]];
    fold this in Hc; fold req in Hc.
  - split; [intros text d Ht; congruence|].
    split; [intros d w1 [=]|]. split.
    + intros e' w1 [= <- <-]. eexists. split; reflexivity.
    + intros e' He'. eexists. f_equal. fold this req in He'. congruence.
  - split; [intros text' d Ht Hd; congruence|].
    split; [intros d w1 [=]|]. split.
    + intros e' w1 [= <- <-]. eexists. split; reflexivity.
    + intros e' He'. fold this req in He'. congruence.
  - split.
    { intros text' d' Ht Hd. assert (text' = text) as -> by congruence.
      assert (d' = d) as -> by congruence.
      exists content. split; [exact Hl|]. split; reflexivity. }
    split; [|split].
    + intros d' w1 [= <- <-]. exists content.
      split; [reflexivity|]. split; [exact Hl|].
      apply (history_grew_log_entry self []),
        history_grew_log_request, history_grew_refl.
    + intros e' w1 [=].
    + intros e' He'. fold this req in He'. congruence.
Qed.

(** A call that returns the reply with thoughts "a" and response "b": the
    [try] block completes and the researcher's history, empty before, is
    the one entry with its name and that response; the other histories are
    still empty. *)
Lemma process_history_witness :
  let w1 := snd (process example_runtime (replying reply_a_b) researcher (py "tides")
                   fresh_world) in
  fst (process example_runtime (replying reply_a_b) researcher (py "tides") fresh_world) =
    Returned [(py "thoughts", PStr (py "a")); (py "response", PStr (py "b"))] /\
  conversation_history (agents (system w1) researcher) =
    [{| entry_role := py "Researcher"; entry_content := PStr (py "b") |}] /\
  conversation_history (agents (system w1) writer) = [] /\
  conversation_history (agents (system w1) critic) = [].
Proof.
  cbv zeta.
  assert (Hs : structure_response example_runtime reply_a_b =
               Returned [(py "thoughts", PStr (py "a")); (py "response", PStr (py "b"))])
    by (vm_compute; reflexivity).
  destruct (process_history example_runtime (replying reply_a_b) researcher (py "tides")
              fresh_world) as (Hreply & _).
  destruct (Hreply reply_a_b _ eq_refl Hs) as (content & Hl & _ & Hp).
  rewrite Hp. injection Hl as <-. repeat split.
Defined.

(** * MultiAgentSystem.run_workflow *)

Lemma structured_fallback_response (e : exn) (thoughts response : pystr) :
  structured (fallback_response e) thoughts response ->
  thoughts = py "Error occurred during processing" /\ response = fault_text e.
Proof. intros [Ht Hr]. injection Ht as <-. injection Hr as <-. now split. Qed.

Lemma fault_text_embeds (e : exn) : embeds (fault_text e) (exn_str e).
Proof. apply embeds_intro. Qed.

(** C2.  With a user interface that takes every status line, the run
    returns its three entries whatever the model calls do.  A stage whose
    call raises [e] does not pass [e] on: its record says that an error
    occurred and its response is the apology around [str(e)]; the stage
    after it is asked about exactly that text ([q2] is built from [r1],
    [q3] from [r2]). *)
Theorem workflow_survives_faults (rt : runtime) (env : environment)
    (task : pystr) (w : world) :
  status_never_fails env ->
  exists o1 o2 o3 t1 r1 t2 r2 t3 r3 w',
    let q1 := create_request (agents (system w) researcher) (researcher_input task) in
    let q2 := create_request (agents (system w) writer) (writer_input task r1) in
    let q3 := create_request (agents (system w) critic) (critic_input task r2) in
    run_workflow rt env task w = (Returned (three_results o1 o2 o3), w') /\
    (structured o1 t1 r1 /\ structured o2 t2 r2 /\ structured o3 t3 r3) /\
    requests w' = requests w ++ [q1; q2; q3] /\
    (forall e, messages_create env (requests w) q1 = Raised e ->
       t1 = py "Error occurred during processing" /\ r1 = fault_text e /\
       embeds r1 (exn_str e)) /\
    (forall e, messages_create env (requests w ++ [q1]) q2 = Raised e ->
       t2 = py "Error occurred during processing" /\ r2 = fault_text e /\
       embeds r2 (exn_str e)) /\
    (forall e, messages_create env (requests w ++ [q1; q2]) q3 = Raised e ->
       t3 = py "Error occurred during processing" /\ r3 = fault_text e /\
       embeds r3 (exn_str e)).
Proof.
  intros Hui.
  destruct (run_workflow_completes rt env task w Hui)
    as (o1 & o2 & o3 & t1 & r1 & t2 & r2 & t3 & r3 & w' &
        Hrun & (Hs1 & Hs2 & Hs3) & Hreq & (He1 & He2 & He3) & _).
  exists o1, o2, o3, t1, r1, t2, r2, t3, r3, w'. cbv zeta.
  split; [exact Hrun|]. split; [auto|]. split; [exact Hreq|].
  assert (Hfault : forall o t r e, structured o t r -> o = fallback_response e ->
            t = py "Error occurred during processing" /\ r = fault_text e /\
            embeds r (exn_str e)).
  { intros o t r e Hs ->. apply structured_fallback_response in Hs as [-> ->].
    repeat split. apply fault_text_embeds. }
  split; [|split]; intros e He.
  - apply (Hfault o1 t1 r1 e Hs1 (He1 e He)).
  - apply (Hfault o2 t2 r2 e Hs2 (He2 e He)).
  - apply (Hfault o3 t3 r3 e Hs3 (He3 e He)).
Qed.

(** Scenario B: the researcher's call times out, the writer and the critic
    get their answers. *)
Lemma workflow_survives_faults_witness :
  status_never_fails (failing_first timeout_fault reply_a_b) /\
  exists results w',
    run_workflow example_runtime (failing_first timeout_fault reply_a_b)
      (py "tides") fresh_world = (Returned results, w') /\
    List.length results = 3%nat /\
    List.length (requests w') = 3%nat.
Proof.
  assert (Hui : status_never_fails (failing_first timeout_fault reply_a_b))
    by (intros label; reflexivity).
  split; [exact Hui|].
  destruct (workflow_survives_faults example_runtime
              (failing_first timeout_fault reply_a_b) (py "tides") fresh_world Hui)
    as (o1 & o2 & o3 & t1 & r1 & t2 & r2 & t3 & r3 & w' & Hrun & _ & Hreq & _).
  exists (three_results o1 o2 o3), w'.
  split; [exact Hrun|]. split; [reflexivity|]. now rewrite Hreq.
Defined.

Lemma response_of_structured (rt : runtime) (d : pydict) (thoughts response : pystr) :
  structured d thoughts response -> response_of rt d = response.
Proof. intros [_ H]. unfold response_of. now rewrite H. Qed.

(** C5.  When the user interface takes every status line and the three
    model calls return [text1], [text2] and [text3], the run returns exactly
    three entries, for researcher, writer and critic in this order, each
    output being the record made of that stage's reply; the writer was asked
    about the task and the response of the researcher's record, the critic
    about the task and the response of the writer's record. *)
Theorem workflow_chains (rt : runtime) (env : environment) (task : pystr) (w : world)
    (text1 text2 text3 : pystr) :
  let o1 := record_made rt text1 in
  let o2 := record_made rt text2 in
  let o3 := record_made rt text3 in
  let q1 := create_request (agents (system w) researcher) (researcher_input task) in
  let q2 := create_request (agents (system w) writer)
              (writer_input task (response_of rt o1)) in
  let q3 := create_request (agents (system w) critic)
              (critic_input task (response_of rt o2)) in
  status_never_fails env ->
  messages_create env (requests w) q1 = Returned text1 ->
  messages_create env (requests w ++ [q1]) q2 = Returned text2 ->
  messages_create env (requests w ++ [q1; q2]) q3 = Returned text3 ->
  exists w',
    run_workflow rt env task w =
      (Returned [{| agent := py "researcher"; output := o1 |};
                 {| agent := py "writer"; output := o2 |};
                 {| agent := py "critic"; output := o3 |}], w') /\
    requests w' = requests w ++ [q1; q2; q3] /\
    embeds (req_content q1) task /\
    (embeds (req_content q2) task /\ embeds (req_content q2) (response_of rt o1)) /\
    (embeds (req_content q3) task /\ embeds (req_content q3) (response_of rt o2)).
Proof.
  intros o1 o2 o3 q1 q2 q3 Hui Hc1 Hc2 Hc3.
  destruct (run_workflow_completes rt env task w Hui)
    as (p1 & p2 & p3 & t1 & r1 & t2 & r2 & t3 & r3 & w' &
        Hrun & (Hs1 & Hs2 & Hs3) & Hreq & _ & (Ht1 & Ht2 & Ht3)).
  cbv zeta in Hreq, Ht1, Ht2, Ht3.
  assert (p1 = o1) as -> by (apply Ht1; exact Hc1).
  rewrite <- (response_of_structured rt _ _ _ Hs1) in Hreq, Ht2, Ht3.
  assert (p2 = o2) as -> by (apply Ht2; exact Hc2).
  rewrite <- (response_of_structured rt _ _ _ Hs2) in Hreq, Ht3.
  assert (p3 = o3) as -> by (apply Ht3; exact Hc3).
  exists w'. split; [exact Hrun|]. split; [exact Hreq|].
  unfold q1, q2, q3, create_request, req_content, user_content,
    researcher_input, writer_input, critic_input.
  repeat split; embeds_search.
Qed.

(** Scenario A: the model answers all three stages with a JSON object. *)
Lemma workflow_chains_witness :
  status_never_fails (replying reply_a_b) /\
  exists w',
    run_workflow example_runtime (replying reply_a_b) (py "tides") fresh_world =
      (Returned
         [{| agent := py "researcher"; output := record_made example_runtime reply_a_b |};
          {| agent := py "writer"; output := record_made example_runtime reply_a_b |};
          {| agent := py "critic"; output := record_made example_runtime reply_a_b |}],
       w') /\
    List.length (requests w') = 3%nat.
Proof.
  assert (Hui : status_never_fails (replying reply_a_b)) by (intros label; reflexivity).
  split; [exact Hui|].
  destruct (workflow_chains example_runtime (replying reply_a_b) (py "tides")
              fresh_world reply_a_b reply_a_b reply_a_b Hui eq_refl eq_refl eq_refl)
    as (w' & Hrun & Hreq & _).
  exists w'. split; [exact Hrun|]. now rewrite Hreq.
Defined.

(** C4.  When the [try] block of [run_workflow] raises, the run returns the
    empty list, whatever the stages before had produced, after reporting the
    fault once.  What raised was a status line: a stage's [process] never
    raises. *)
Theorem run_workflow_aborts (rt : runtime) (env : environment) (task : pystr)
    (w w1 : world) (e : exn) :
  run_workflow_try rt env task w = (Raised e, w1) ->
  run_workflow rt env task w = (Returned [], aborted e w1) /\
  (status_write env researcher_status = Some e \/
   status_write env writer_status = Some e \/
   status_write env critic_status = Some e).
Proof.
  intros Htry. split.
  - unfold run_workflow, try_except. rewrite Htry. reflexivity.
  - pose proof (run_workflow_try_cases rt env task w) as H.
    destruct (status_write env researcher_status) as [e1|].
    { left. congruence. }
    destruct H as (o1 & w1' & t1 & r1 & _ & _ & H).
    destruct (status_write env writer_status) as [e2|].
    { right. left. congruence. }
    destruct H as (o2 & w2 & t2 & r2 & _ & _ & H).
    destruct (status_write env critic_status) as [e3|].
    { right. right. congruence. }
    destruct H as (o3 & w3 & t3 & r3 & _ & _ & H). congruence.
Qed.

(** Scenario D: the status line of the writer stage fails, after the
    researcher has been asked and has answered. *)
Lemma run_workflow_aborts_witness :
  let env := failing_writer_status timeout_fault reply_a_b in
  let w1 := snd (run_workflow_try example_runtime env (py "tides") fresh_world) in
  run_workflow_try example_runtime env (py "tides") fresh_world = (Raised timeout_fault, w1) /\
  List.length (requests w1) = 1%nat /\
  List.length (conversation_history (agents (system w1) researcher)) = 1%nat /\
  run_workflow example_runtime env (py "tides") fresh_world =
    (Returned [], aborted timeout_fault w1).
Proof.
  cbv zeta.
  assert (Htry : run_workflow_try example_runtime
                   (failing_writer_status timeout_fault reply_a_b) (py "tides") fresh_world =
                 (Raised timeout_fault,
                  snd (run_workflow_try example_runtime
                         (failing_writer_status timeout_fault reply_a_b)
                         (py "tides") fresh_world)))
    by (vm_compute; reflexivity).
  split; [exact Htry|]. split; [vm_compute; reflexivity|].
  split; [vm_compute; reflexivity|].
  exact (proj1 (run_workflow_aborts example_runtime
                  (failing_writer_status timeout_fault reply_a_b) (py "tides")
                  fresh_world _ timeout_fault Htry)).
Defined.

(** * Further properties of the sanitizer (app.py, lines 10-21) *)

(** X1.  Sanitizing a concatenation is concatenating the sanitized parts:
    every step of [clean_text_for_json] works character by character. *)
Theorem sanitize_concat (a b : pystr) :
  clean_text_for_json (a ++ b) = clean_text_for_json a ++ clean_text_for_json b.
Proof.
  rewrite !clean_text_for_json_flat_map. apply flat_map_app.
Qed.

(** X2.  The texts the sanitizer leaves unchanged are exactly those whose
    characters all have code points from 32 to 127. *)
Theorem sanitize_fixed_points (t : pystr) :
  clean_text_for_json t = t <-> Forall json_safe t.
Proof.
  split.
  - intros <-. apply clean_text_for_json_json_safe.
  - apply clean_text_for_json_fixed.
Qed.

Lemma clean_char_length (c : N) : (len (clean_char c) <= 2)%nat.
Proof.
  unfold clean_char.
  repeat match goal with
         | |- context [if ?b then _ else _] => destruct b
         end; cbn; lia.
Qed.

(** X3.  The sanitized text is at most twice as long as the input (only the
    three escapes lengthen it), and the empty text stays empty. *)
Theorem sanitize_length (t : pystr) :
  (len (clean_text_for_json t) <= 2 * len t)%nat /\
  clean_text_for_json [] = [].
Proof.
  split; [|reflexivity].
  rewrite clean_text_for_json_flat_map. unfold len.
  induction t as [|c t IH]; cbn [flat_map List.length]; [lia|].
  rewrite length_app. pose proof (clean_char_length c) as Hc. unfold len in Hc. lia.
Qed.

(** X4.  The sanitizer does not escape the backslash, so a line break and
    the two characters backslash, n come out the same, wherever they stand;
    likewise for carriage return and tab.  Sanitizing is not injective. *)
Theorem sanitize_conflates_escapes (a b : pystr) :
  clean_text_for_json (a ++ [LF] ++ b) = clean_text_for_json (a ++ py "\n" ++ b) /\
  clean_text_for_json (a ++ [CR] ++ b) = clean_text_for_json (a ++ py "\r" ++ b) /\
  clean_text_for_json (a ++ [TAB] ++ b) = clean_text_for_json (a ++ py "\t" ++ b).
Proof.
  rewrite !clean_text_for_json_app. repeat split; reflexivity.
Qed.

(** * Further properties of the extraction (app.py, lines 50-73) *)

Lemma upto_last_Some (c : N) (s m : pystr) :
  upto_last c s = Some m ->
  exists mid post, m = mid ++ [c] /\ s = m ++ post /\ ~ In c post.
Proof.
  revert m. induction s as [|x s IH]; intros m; cbn [upto_last]; [discriminate|].
  destruct (upto_last c s) as [m'|] eqn:E.
  - intros [= <-]. destruct (IH m' eq_refl) as (mid & post & -> & Hs & Hpost).
    exists (x :: mid), post. repeat split; [now rewrite Hs at 1|exact Hpost].
  - destruct (N.eqb_spec x c) as [->|Hne]; [|discriminate].
    intros [= <-]. exists [], s. repeat split.
    clear IH. induction s as [|y s IHs]; [auto|].
    cbn [upto_last] in E. destruct (upto_last c s); [discriminate|].
    destruct (N.eqb_spec y c); [discriminate|].
    intros [Hy|Hin]; [congruence|]. now apply IHs.
Qed.

Lemma upto_last_None (c : N) (s : pystr) : upto_last c s = None -> ~ In c s.
Proof.
  induction s as [|y s IH]; [auto|]. cbn [upto_last].
  destruct (upto_last c s); [discriminate|].
  destruct (N.eqb_spec y c); [discriminate|].
  intros _ [Hy|Hin]; [congruence|]. now apply IH.
Qed.

Lemma upto_last_found (c : N) (m post : pystr) :
  ~ In c post -> upto_last c (m ++ [c] ++ post) = Some (m ++ [c]).
Proof.
  intros Hpost.
  assert (Hnone : upto_last c post = None).
  { induction post as [|y post IH]; [reflexivity|]. cbn [upto_last].
    rewrite IH by (intros H; apply Hpost; now right).
    destruct (N.eqb_spec y c) as [->|]; [|reflexivity].
    exfalso. apply Hpost. now left. }
  induction m as [|x m IH]; cbn [app upto_last].
  - now rewrite Hnone, N.eqb_refl.
  - cbn [app] in IH. now rewrite IH.
Qed.

Lemma re_search_braces_skip (pre text : pystr) :
  ~ In LBRACE pre -> re_search_braces (pre ++ text) = re_search_braces text.
Proof.
  induction pre as [|x pre IH]; intros Hpre; [reflexivity|].
  cbn [app re_search_braces].
  destruct (N.eqb_spec x LBRACE) as [->|_].
  - exfalso. apply Hpre. now left.
  - apply IH. intros H. apply Hpre. now right.
Qed.

Lemma re_search_braces_cases (text : pystr) :
  match re_search_braces text with
  | Some m =>
      exists pre mid post,
        text = pre ++ m ++ post /\ m = LBRACE :: mid ++ [RBRACE] /\
        ~ In LBRACE pre /\ ~ In RBRACE post
  | None =>
      forall pre mid post, text <> pre ++ [LBRACE] ++ mid ++ [RBRACE] ++ post
  end.
Proof.
  induction text as [|x text IH]; cbn [re_search_braces].
  - intros pre mid post H. symmetry in H. apply app_eq_nil in H as [_ H].
    destruct pre; discriminate.
  - destruct (N.eqb_spec x LBRACE) as [->|Hx].
    + destruct (upto_last RBRACE text) as [m|] eqn:E.
      * apply upto_last_Some in E as (mid & post & -> & -> & Hpost).
        exists [], mid, post. repeat split; auto.
      * apply upto_last_None in E.
        assert (Hnone : re_search_braces text = None).
        { clear IH. induction text as [|y text IHt]; [reflexivity|].
          cbn [re_search_braces].
          assert (Ht : ~ In RBRACE text) by (intros H; apply E; now right).
          rewrite (IHt Ht).
          destruct (y =? LBRACE); [|reflexivity].
          destruct (upto_last RBRACE text) as [m|] eqn:Em; [|reflexivity].
          apply upto_last_Some in Em as (mid & post & -> & Hs & _).
          exfalso. apply Ht. rewrite Hs. apply in_or_app. left.
          apply in_or_app. right. now left. }
        rewrite Hnone. intros pre mid post H. apply E.
        destruct pre as [|p pre]; cbn [app] in H.
        -- injection H as ->. apply in_or_app. right. now left.
        -- injection H as _ ->. apply in_or_app. right. right.
           apply in_or_app. right. now left.
    + destruct (re_search_braces text) as [m|].
      * destruct IH as (pre & mid & post & -> & -> & Hpre & Hpost).
        exists (x :: pre), mid, post. repeat split; auto.
        intros [H|H]; [congruence | contradiction].
      * intros pre mid post H.
        destruct pre as [|p pre]; cbn [app] in H.
        -- injection H as H1 _. congruence.
        -- injection H as _ H2. now apply (IH pre mid post).
Qed.

(** X5.  The brace search of [process]: a match runs from the first opening
    brace of the text to the last closing brace; there is none exactly when
    no closing brace comes after an opening one. *)
Theorem re_search_braces_spec (text : pystr) :
  match re_search_braces text with
  | Some m =>
      exists pre mid post,
        text = pre ++ m ++ post /\ m = LBRACE :: mid ++ [RBRACE] /\
        ~ In LBRACE pre /\ ~ In RBRACE post
  | None =>
      forall pre mid post, text <> pre ++ [LBRACE] ++ mid ++ [RBRACE] ++ post
  end.
Proof. exact (re_search_braces_cases text). Qed.

Lemma lstrip_spaces (text : pystr) :
  Forall (fun c => isspace c = true) text -> lstrip text = [].
Proof.
  induction 1 as [|c text Hc _ IH]; [reflexivity|]. cbn [lstrip]. now rewrite Hc.
Qed.

Lemma structure_response_candidate (rt : runtime) (text : pystr) :
  structure_response rt text =
  match get_method
          match json_loads (candidate text) with
          | Loaded obj => obj
          | JSONDecodeError => structured_from_text (candidate text)
          end
  with
  | Raised e => Raised e
  | Returned d =>
      let d := dict_setitem d (py "thoughts")
                 (PStr (clean_text_for_json (py_str rt (dict_get d (py "thoughts") (PStr []))))) in
      let d := dict_setitem d (py "response")
                 (PStr (clean_text_for_json (py_str rt (dict_get d (py "response") (PStr []))))) in
      Returned d
  end.
Proof. reflexivity. Qed.

(** X6.  A reply that is empty or all white space gives the synthesized
    record with an empty response. *)
Theorem blank_reply_record (rt : runtime) (text : pystr) :
  Forall (fun c => isspace c = true) text ->
  structure_response rt text =
  Returned [(py "thoughts", PStr (py "Processed the input and structured the response"));
            (py "response", PStr [])].
Proof.
  intros Hblank. rewrite structure_response_candidate.
  unfold candidate, raw_candidate, strip. rewrite (lstrip_spaces text Hblank).
  reflexivity.
Qed.

Lemma blank_reply_record_witness :
  Forall (fun c => isspace c = true) [ch " "; LF; TAB; 0xa0] /\
  structure_response example_runtime [ch " "; LF; TAB; 0xa0] =
  Returned [(py "thoughts", PStr (py "Processed the input and structured the response"));
            (py "response", PStr [])].
Proof.
  assert (H : Forall (fun c => isspace c = true) [ch " "; LF; TAB; 0xa0])
    by (repeat constructor).
  split; [exact H|]. exact (blank_reply_record example_runtime _ H).
Defined.

Lemma JSONObject_dict (scan_value : pystr -> scan pyobj) (s rest : pystr) (obj : pyobj) :
  JSONObject scan_value s = Scanned obj rest -> exists d, obj = PDict d.
Proof.
  unfold JSONObject. destruct (skip_ws s) as [|nextchar r]; [discriminate|].
  destruct (nextchar =? RBRACE); [intros [= <- _]; eauto|].
  destruct (nextchar =? DQUOTE); [|discriminate].
  intros H. apply scan_map_Scanned in H as (pairs & _ & ->). eauto.
Qed.

(** A text that opens with a brace loads as a dict or not at all. *)
Lemma json_loads_braced (r : pystr) (obj : pyobj) :
  json_loads (LBRACE :: r) = Loaded obj -> exists d, obj = PDict d.
Proof.
  intros H.
  change (json_loads (LBRACE :: r)) with
    (match JSONObject (scan_once (len (LBRACE :: r))) r with
     | Scanned obj rest =>
         match skip_ws rest with
         | [] => Loaded obj
         | _ :: _ => JSONDecodeError
         end
     | Invalid => JSONDecodeError
     | Starved => JSONDecodeError
     end) in H.
  destruct (JSONObject _ r) as [o rest| |] eqn:E; try discriminate.
  destruct (skip_ws rest); [|discriminate]. injection H as <-.
  now apply JSONObject_dict in E.
Qed.

Lemma re_search_braces_Some (text m : pystr) :
  re_search_braces text = Some m -> exists mid, m = LBRACE :: mid ++ [RBRACE].
Proof.
  intros H. pose proof (re_search_braces_cases text) as Hc. rewrite H in Hc.
  destruct Hc as (_ & mid & _ & _ & -> & _). eauto.
Qed.

(** X7.  When the reply has a span of braces, the candidate opens with a
    brace, so whatever [json.loads] returns for it is a dict: the look-up of
    [get] does not raise, and the record with both fields is built. *)
Theorem braced_reply_loads_dict (rt : runtime) (text m : pystr) (obj : pyobj) :
  re_search_braces (strip text) = Some m ->
  json_loads (candidate text) = Loaded obj ->
  exists parsed d thoughts response,
    obj = PDict parsed /\
    structure_response rt text = Returned d /\
    structured d thoughts response.
Proof.
  intros Hm Hload.
  assert (Hcand : exists r, candidate text = LBRACE :: r).
  { unfold candidate, raw_candidate. rewrite Hm.
    apply re_search_braces_Some in Hm as [mid ->].
    rewrite clean_text_for_json_cons. eexists. reflexivity. }
  destruct Hcand as [r Hcand].
  rewrite Hcand in Hload. pose proof Hload as Hdict.
  apply json_loads_braced in Hdict as [parsed ->]. rewrite <- Hcand in Hload.
  destruct (structure_response rt text) as [d|e] eqn:Es.
  - destruct (structure_response_Returned rt _ _ Es) as (t & r' & Hd & _).
    exists parsed, d, t, r'. auto.
  - rewrite structure_response_candidate, Hload in Es. discriminate.
Qed.

Lemma braced_reply_loads_dict_witness :
  re_search_braces (strip reply_in_prose) =
    Some (py "{" ++ quoted "thoughts" ++ py ":" ++ quoted "x" ++ py "," ++
          quoted "response" ++ py ":" ++ quoted "y" ++ py "}") /\
  json_loads (candidate reply_in_prose) =
    Loaded (PDict [(py "thoughts", PStr (py "x")); (py "response", PStr (py "y"))]) /\
  exists d thoughts response,
    structure_response example_runtime reply_in_prose = Returned d /\
    structured d thoughts response.
Proof.
  assert (Hm : re_search_braces (strip reply_in_prose) =
               Some (py "{" ++ quoted "thoughts" ++ py ":" ++ quoted "x" ++ py "," ++
                     quoted "response" ++ py ":" ++ quoted "y" ++ py "}"))
    by (vm_compute; reflexivity).
  assert (Hload : json_loads (candidate reply_in_prose) =
                  Loaded (PDict [(py "thoughts", PStr (py "x"));
                                 (py "response", PStr (py "y"))]))
    by (vm_compute; reflexivity).
  split; [exact Hm|]. split; [exact Hload|].
  destruct (braced_reply_loads_dict example_runtime _ _ _ Hm Hload)
    as (parsed & d & t & r & _ & Hs & Hd).
  exists d, t, r. split; [exact Hs | exact Hd].
Defined.

Lemma get_method_non_dict (obj : pyobj) :
  (forall d, obj <> PDict d) ->
  get_method obj = Raised (Exception "AttributeError" (no_get_text obj)).
Proof.
  intros Hobj. destruct obj; try reflexivity. now destruct (Hobj items).
Qed.

(** X8.  When the candidate is valid JSON but not an object, [process]
    returns the error record that quotes the [AttributeError] of the missing
    [get], reports it once, and leaves every agent as it was (no history
    entry). *)
Theorem non_object_reply (rt : runtime) (env : environment) (self : agent_key)
    (input_text : pystr) (w : world) (text : pystr) (obj : pyobj) :
  let req := create_request (agents (system w) self) input_text in
  let e := Exception "AttributeError" (no_get_text obj) in
  messages_create env (requests w) req = Returned text ->
  json_loads (candidate text) = Loaded obj ->
  (forall d, obj <> PDict d) ->
  process rt env self input_text w =
    (Returned (fallback_response e),
     log_ui (StError (py "Processing error: " ++ exn_str e)) (log_request req w)) /\
  system (snd (process rt env self input_text w)) = system w.
Proof.
  intros req e Hcall Hload Hobj.
  assert (Hs : structure_response rt text = Raised e).
  { rewrite structure_response_candidate, Hload, (get_method_non_dict obj Hobj).
    reflexivity. }
  pose proof (process_reply rt env self input_text w text Hcall) as H.
  rewrite Hs in H. fold req in H. rewrite H. split; reflexivity.
Qed.

Lemma non_object_reply_witness :
  let text := py "[1, 2]" in
  let obj := PList [PInt 1; PInt 2] in
  let e := Exception "AttributeError" (py "'list' object has no attribute 'get'") in
  json_loads (candidate text) = Loaded obj /\
  fst (process example_runtime (replying text) writer (py "tides") fresh_world) =
    Returned (fallback_response e).
Proof.
  cbv zeta.
  assert (Hload : json_loads (candidate (py "[1, 2]")) = Loaded (PList [PInt 1; PInt 2]))
    by (vm_compute; reflexivity).
  split; [exact Hload|].
  assert (Hobj : forall d, PList [PInt 1; PInt 2] <> PDict d) by discriminate.
  rewrite (proj1 (non_object_reply example_runtime (replying (py "[1, 2]")) writer
                    (py "tides") fresh_world (py "[1, 2]") _ eq_refl Hload Hobj)).
  reflexivity.
Defined.

(** X9.  When the candidate parses to an object, the record is that object
    with two fields rewritten: thoughts and response become the sanitized
    [str] of their values, the empty text when the key is missing; every
    other key keeps its value. *)
Theorem parsed_object_record (rt : runtime) (text : pystr) (parsed : pydict) :
  json_loads (candidate text) = Loaded (PDict parsed) ->
  exists d,
    structure_response rt text = Returned d /\
    dict_lookup d (py "thoughts") =
      Some (PStr (clean_text_for_json (py_str rt (dict_get parsed (py "thoughts") (PStr []))))) /\
    dict_lookup d (py "response") =
      Some (PStr (clean_text_for_json (py_str rt (dict_get parsed (py "response") (PStr []))))) /\
    (dict_lookup parsed (py "thoughts") = None ->
     dict_lookup d (py "thoughts") = Some (PStr [])) /\
    (dict_lookup parsed (py "response") = None ->
     dict_lookup d (py "response") = Some (PStr [])) /\
    (forall key, key <> py "thoughts" -> key <> py "response" ->
                 dict_lookup d key = dict_lookup parsed key).
Proof.
  intros Hload. rewrite structure_response_candidate, Hload. cbn [get_method].
  eexists. split; [reflexivity|].
  assert (Hresp : dict_get
                    (dict_setitem parsed (py "thoughts")
                       (PStr (clean_text_for_json
                                (py_str rt (dict_get parsed (py "thoughts") (PStr []))))))
                    (py "response") (PStr []) =
                  dict_get parsed (py "response") (PStr [])).
  { unfold dict_get. now rewrite dict_lookup_setitem_other by discriminate. }
  cbv zeta. rewrite Hresp.
  split; [|split; [|split; [|split]]].
  - rewrite dict_lookup_setitem_other by discriminate. apply dict_lookup_setitem_same.
  - apply dict_lookup_setitem_same.
  - intros Hnone. rewrite dict_lookup_setitem_other by discriminate.
    rewrite dict_lookup_setitem_same. unfold dict_get. now rewrite Hnone.
  - intros Hnone. rewrite dict_lookup_setitem_same. unfold dict_get. now rewrite Hnone.
  - intros key Ht Hr. rewrite !dict_lookup_setitem_other by congruence. reflexivity.
Qed.

Lemma parsed_object_record_witness :
  json_loads (candidate reply_with_extra) =
    Loaded (PDict [(py "thoughts", PInt 5); (py "mood", PStr (py "calm"))]) /\
  exists d,
    structure_response example_runtime reply_with_extra = Returned d /\
    dict_lookup d (py "thoughts") = Some (PStr (py "5")) /\
    dict_lookup d (py "response") = Some (PStr []) /\
    dict_lookup d (py "mood") = Some (PStr (py "calm")).
Proof.
  assert (Hload : json_loads (candidate reply_with_extra) =
                  Loaded (PDict [(py "thoughts", PInt 5); (py "mood", PStr (py "calm"))]))
    by (vm_compute; reflexivity).
  split; [exact Hload|].
  destruct (parsed_object_record example_runtime reply_with_extra _ Hload)
    as (d & Hs & Ht & _ & _ & Hr & Hother).
  exists d. split; [exact Hs|]. split; [exact Ht|]. split; [exact (Hr eq_refl)|].
  rewrite (Hother (py "mood")) by discriminate. reflexivity.
Defined.

Lemma lstrip_keeps (pre : pystr) (c : N) (rest : pystr) :
  isspace c = false ->
  exists pre', lstrip (pre ++ c :: rest) = pre' ++ c :: rest /\
               forall x, In x pre' -> In x pre.
Proof.
  intros Hc. induction pre as [|p pre IH]; cbn [app lstrip].
  - exists []. rewrite Hc. split; [reflexivity | auto].
  - destruct (isspace p).
    + destruct IH as (pre' & -> & Hin). exists pre'. split; [reflexivity|].
      intros x Hx. right. auto.
    + exists (p :: pre). split; [reflexivity | auto].
Qed.

Lemma rstrip_keeps (body : pystr) (c : N) (post : pystr) :
  isspace c = false ->
  exists post', rstrip (body ++ c :: post) = body ++ c :: post' /\
                forall x, In x post' -> In x post.
Proof.
  intros Hc. unfold rstrip.
  rewrite rev_app_distr. cbn [rev]. rewrite <- app_assoc. cbn [app].
  destruct (lstrip_keeps (rev post) c (rev body) Hc) as (pre' & -> & Hin).
  exists (rev pre'). split.
  - rewrite rev_app_distr. cbn [rev]. rewrite rev_involutive, <- app_assoc. reflexivity.
  - intros x Hx. apply in_rev in Hx. apply Hin in Hx. now apply in_rev in Hx.
Qed.

(** The candidate of an object wrapped in prose without braces of its own
    is the object. *)
Lemma raw_candidate_wrapped (prefix suffix mid : pystr) :
  ~ In LBRACE prefix -> ~ In RBRACE suffix ->
  raw_candidate (prefix ++ (LBRACE :: mid ++ [RBRACE]) ++ suffix) =
  LBRACE :: mid ++ [RBRACE].
Proof.
  intros Hpre Hsuf. unfold raw_candidate, strip.
  cbn [app].
  destruct (lstrip_keeps prefix LBRACE ((mid ++ [RBRACE]) ++ suffix) eq_refl)
    as (pre' & -> & Hpre').
  replace (pre' ++ LBRACE :: (mid ++ [RBRACE]) ++ suffix)
    with ((pre' ++ LBRACE :: mid) ++ RBRACE :: suffix)
    by (rewrite <- !app_assoc; reflexivity).
  destruct (rstrip_keeps (pre' ++ LBRACE :: mid) RBRACE suffix eq_refl)
    as (post' & -> & Hpost').
  rewrite <- app_assoc. cbv zeta.
  rewrite re_search_braces_skip by (intros H; apply Hpre; auto).
  cbn [app re_search_braces]. rewrite N.eqb_refl.
  change (mid ++ RBRACE :: post') with (mid ++ [RBRACE] ++ post').
  rewrite upto_last_found by (intros H; apply Hsuf; auto).
  reflexivity.
Qed.

Lemma structure_response_same_candidate (rt : runtime) (text text' : pystr) :
  raw_candidate text = raw_candidate text' ->
  structure_response rt text = structure_response rt text'.
Proof.
  intros H. rewrite !structure_response_candidate. unfold candidate. now rewrite H.
Qed.

(** X10.  The round trip in general.  An object whose two values are plain
    texts (ASCII from 32 on, no double quote, no backslash), alone or wrapped
    in prose that has no opening brace before it and no closing brace after
    it, gives back exactly those two texts. *)
Theorem round_trip_in_prose (rt : runtime) (prefix suffix a b : pystr) :
  Forall plain a -> Forall plain b ->
  ~ In LBRACE prefix -> ~ In RBRACE suffix ->
  structure_response rt (prefix ++ reply_of a b ++ suffix) =
  Returned [(py "thoughts", PStr a); (py "response", PStr b)].
Proof.
  intros Ha Hb Hpre Hsuf.
  destruct (reply_of_shape a b) as [mid Hshape].
  rewrite <- (round_trip_plain rt a b Ha Hb).
  apply structure_response_same_candidate.
  rewrite Hshape, (raw_candidate_wrapped prefix suffix mid Hpre Hsuf).
  pose proof (raw_candidate_wrapped [] [] mid (fun H => H) (fun H => H)) as H0.
  cbn [app] in H0. rewrite app_nil_r in H0. now rewrite H0.
Qed.

Lemma round_trip_in_prose_witness :
  Forall plain (py "x") /\ Forall plain (py "y") /\
  ~ In LBRACE (py "Sure! ") /\ ~ In RBRACE (py " Hope that helps!") /\
  structure_response example_runtime
    (py "Sure! " ++ reply_of (py "x") (py "y") ++ py " Hope that helps!") =
  Returned [(py "thoughts", PStr (py "x")); (py "response", PStr (py "y"))].
Proof.
  assert (Hx : Forall plain (py "x"))
    by (repeat constructor; unfold DQUOTE, BACKSLASH; cbn; lia).
  assert (Hy : Forall plain (py "y"))
    by (repeat constructor; unfold DQUOTE, BACKSLASH; cbn; lia).
  assert (Hpre : ~ In LBRACE (py "Sure! ")) by (cbn; intuition discriminate).
  assert (Hsuf : ~ In RBRACE (py " Hope that helps!")) by (cbn; intuition discriminate).
  repeat (split; [assumption|]).
  exact (round_trip_in_prose example_runtime _ _ _ _ Hx Hy Hpre Hsuf).
Defined.

(** X17.  When the candidate does not parse, the record is the fixed
    thoughts sentence with the candidate itself as response: sanitizing the
    candidate a second time changes nothing. *)
Theorem unparsable_reply_record (rt : runtime) (text : pystr) :
  json_loads (candidate text) = JSONDecodeError ->
  structure_response rt text =
  Returned [(py "thoughts", PStr (py "Processed the input and structured the response"));
            (py "response", PStr (candidate text))].
Proof.
  intros Hload. rewrite structure_response_candidate, Hload.
  unfold structured_from_text. cbn [get_method].
  set (c := candidate text).
  assert (Hc : clean_text_for_json c = c) by apply sanitized_clean.
  replace (dict_get [(py "thoughts",
                      PStr (py "Processed the input and structured the response"));
                     (py "response", PStr c)] (py "thoughts") (PStr []))
    with (PStr (py "Processed the input and structured the response")) by reflexivity.
  cbn [py_str].
  replace (clean_text_for_json (py "Processed the input and structured the response"))
    with (py "Processed the input and structured the response") by reflexivity.
  cbv zeta.
  set (d := dict_setitem _ (py "thoughts") _).
  assert (Hd : d = [(py "thoughts",
                     PStr (py "Processed the input and structured the response"));
                    (py "response", PStr c)]) by reflexivity.
  rewrite Hd.
  replace (dict_get [(py "thoughts",
                      PStr (py "Processed the input and structured the response"));
                     (py "response", PStr c)] (py "response") (PStr []))
    with (PStr c) by reflexivity.
  cbn [py_str]. rewrite Hc. reflexivity.
Qed.

Lemma unparsable_reply_record_witness :
  json_loads (candidate (py "  No JSON today.  ")) = JSONDecodeError /\
  structure_response example_runtime (py "  No JSON today.  ") =
  Returned [(py "thoughts", PStr (py "Processed the input and structured the response"));
            (py "response", PStr (py "No JSON today."))].
Proof.
  assert (Hload : json_loads (candidate (py "  No JSON today.  ")) = JSONDecodeError)
    by (vm_compute; reflexivity).
  split; [exact Hload|].
  rewrite (unparsable_reply_record example_runtime _ Hload). reflexivity.
Defined.

(** * Further properties of Agent.process (app.py, lines 37-88) *)

(** What one call of [process] leaves behind. *)
Lemma process_footprint (rt : runtime) (env : environment) (self : agent_key)
    (input_text : pystr) (w : world) :
  let this := agents (system w) self in
  let req := create_request this input_text in
  exists d w',
    process rt env self input_text w = (Returned d, w') /\
    requests w' = requests w ++ [req] /\
    ((exists content,
         dict_lookup d (py "response") = Some content /\
         ui w' = ui w /\
         history_grew self [{| entry_role := name this; entry_content := content |}] w w') \/
     (exists e,
         d = fallback_response e /\
         ui w' = ui w ++ [StError (py "Processing error: " ++ exn_str e)] /\
         system w' = system w)).
Proof.
  intros this req. rewrite process_of_try.
  destruct (process_try_cases rt env self input_text w)
    as [(e & _ & ->) | [(text & e & _ & _ & ->) | (text & d & content & _ & _ & Hl & ->)]].
  - eexists _, _. split; [reflexivity|]. split; [reflexivity|]. right.
    exists e. repeat split.
  - eexists _, _. split; [reflexivity|]. split; [reflexivity|]. right.
    exists e. repeat split.
  - eexists _, _. split; [reflexivity|]. split; [reflexivity|]. left.
    exists content. split; [exact Hl|]. split; [reflexivity|].
    apply (history_grew_log_entry self []), history_grew_log_request, history_grew_refl.
Qed.

(** X11.  Every call of [process] asks the model exactly once, and then does
    exactly one of two things: it appends one entry to its agent's history
    and tells the user interface nothing, or it returns the error record,
    reports once through [st.error] and changes no agent. *)
Theorem process_one_call_one_effect (rt : runtime) (env : environment)
    (self : agent_key) (input_text : pystr) (w : world) :
  let this := agents (system w) self in
  let req := create_request this input_text in
  exists d w',
    process rt env self input_text w = (Returned d, w') /\
    requests w' = requests w ++ [req] /\
    ((exists content,
         dict_lookup d (py "response") = Some content /\
         ui w' = ui w /\
         history_grew self [{| entry_role := name this; entry_content := content |}] w w') \/
     (exists e,
         d = fallback_response e /\
         ui w' = ui w ++ [StError (py "Processing error: " ++ exn_str e)] /\
         system w' = system w)).
Proof. exact (process_footprint rt env self input_text w). Qed.

Lemma agents_same_key (self : agent_key) (entries : list ConversationEntry) (w w' : world) :
  history_grew self entries w w' ->
  name (agents (system w') self) = name (agents (system w) self) /\
  conversation_history (agents (system w') self) =
    conversation_history (agents (system w) self) ++ entries.
Proof.
  intros H. destruct (H self) as (Hn & _ & Hh). split; [exact Hn|].
  rewrite Hh. now destruct self.
Qed.

Lemma process_try_Returned (rt : runtime) (env : environment) (self : agent_key)
    (input_text : pystr) (w w' : world) (d : pydict) :
  process_try rt env self input_text w = (Returned d, w') ->
  exists content,
    dict_lookup d (py "response") = Some content /\
    name (agents (system w') self) = name (agents (system w) self) /\
    conversation_history (agents (system w') self) =
      conversation_history (agents (system w) self) ++
      [{| entry_role := name (agents (system w) self); entry_content := content |}].
Proof.
  intros Htry.
  destruct (process_try_cases rt env self input_text w)
    as [(e & _ & H) | [(text & e & _ & _ & H) | (text & d' & content & _ & _ & Hl & H)]];
    rewrite Htry in H; try discriminate.
  injection H as -> ->. exists content. split; [exact Hl|].
  apply agents_same_key.
  apply (history_grew_log_entry self []), history_grew_log_request, history_grew_refl.
Qed.

(** X12.  Histories keep the order of the calls: after two calls on the same
    agent whose [try] blocks completed, its history is the old one followed
    by the response of the first record, then that of the second, both
    under the agent's name. *)
Theorem process_twice_history (rt : runtime) (env : environment) (self : agent_key)
    (input1 input2 : pystr) (w w1 w2 : world) (d1 d2 : pydict) :
  process_try rt env self input1 w = (Returned d1, w1) ->
  process_try rt env self input2 w1 = (Returned d2, w2) ->
  exists content1 content2,
    dict_lookup d1 (py "response") = Some content1 /\
    dict_lookup d2 (py "response") = Some content2 /\
    conversation_history (agents (system w2) self) =
      conversation_history (agents (system w) self) ++
      [{| entry_role := name (agents (system w) self); entry_content := content1 |};
       {| entry_role := name (agents (system w) self); entry_content := content2 |}].
Proof.
  intros H1 H2.
  apply process_try_Returned in H1 as (c1 & Hl1 & Hn1 & Hh1).
  apply process_try_Returned in H2 as (c2 & Hl2 & _ & Hh2).
  exists c1, c2. split; [exact Hl1|]. split; [exact Hl2|].
  rewrite Hh2, Hh1, Hn1, <- app_assoc. reflexivity.
Qed.

Lemma process_twice_history_witness :
  let env := replying reply_a_b in
  let w1 := snd (process_try example_runtime env critic (py "one") fresh_world) in
  let w2 := snd (process_try example_runtime env critic (py "two") w1) in
  conversation_history (agents (system w2) critic) =
    [{| entry_role := py "Critic"; entry_content := PStr (py "b") |};
     {| entry_role := py "Critic"; entry_content := PStr (py "b") |}].
Proof.
  cbv zeta.
  set (env := replying reply_a_b).
  set (w1 := snd (process_try example_runtime env critic (py "one") fresh_world)).
  set (w2 := snd (process_try example_runtime env critic (py "two") w1)).
  set (d := [(py "thoughts", PStr (py "a")); (py "response", PStr (py "b"))]).
  assert (H1 : process_try example_runtime env critic (py "one") fresh_world = (Returned d, w1))
    by (vm_compute; reflexivity).
  assert (H2 : process_try example_runtime env critic (py "two") w1 = (Returned d, w2))
    by (vm_compute; reflexivity).
  destruct (process_twice_history example_runtime env critic _ _ _ _ _ _ _ H1 H2)
    as (c1 & c2 & Hl1 & Hl2 & Hh).
  rewrite Hh. injection Hl1 as <-. injection Hl2 as <-. reflexivity.
Defined.

(** * Further properties of run_workflow (app.py, lines 99-132) *)

Lemma process_grows (rt : runtime) (env : environment) (self : agent_key)
    (input_text : pystr) (w w' : world) (d : pydict) :
  process rt env self input_text w = (Returned d, w') ->
  exists req entries,
    requests w' = requests w ++ [req] /\
    (List.length entries <= 1)%nat /\
    history_grew self entries w w'.
Proof.
  intros Hp.
  destruct (process_footprint rt env self input_text w)
    as (d0 & w0 & Hp0 & Hreq & Hcases).
  rewrite Hp in Hp0. injection Hp0 as <- <-.
  eexists. destruct Hcases as [(content & _ & _ & Hg) | (e & _ & _ & Hsys)].
  - eexists. split; [exact Hreq|]. split; [|exact Hg]. cbn. lia.
  - exists []. split; [exact Hreq|]. split; [cbn; lia|].
    intros k. rewrite Hsys. repeat split. destruct k, self; now rewrite app_nil_r.
Qed.

Lemma append_only_stages (w w1 w2 w3 : world) (e1 e2 e3 : list ConversationEntry) :
  history_grew researcher e1 w w1 ->
  history_grew writer e2 w1 w2 ->
  history_grew critic e3 w2 w3 ->
  (List.length e1 <= 1)%nat -> (List.length e2 <= 1)%nat -> (List.length e3 <= 1)%nat ->
  append_only w w3.
Proof.
  intros H1 H2 H3 L1 L2 L3 k.
  destruct (H1 k) as (Hn1 & Hr1 & Hh1), (H2 k) as (Hn2 & Hr2 & Hh2),
    (H3 k) as (Hn3 & Hr3 & Hh3).
  split; [congruence|]. split; [congruence|].
  rewrite Hh3, Hh2, Hh1.
  destruct k; rewrite ?app_nil_r; eauto.
Qed.

(** The run, with everything it leaves behind. *)
Lemma run_workflow_outcomes (rt : runtime) (env : environment) (task : pystr) (w : world) :
  exists results w' asked,
    run_workflow rt env task w = (Returned results, w') /\
    requests w' = requests w ++ asked /\
    append_only w w' /\
    ((results = [] /\ (List.length asked < 3)%nat /\
      exists e w1, w' = aborted e w1 /\
                   (status_write env researcher_status = Some e \/
                    status_write env writer_status = Some e \/
                    status_write env critic_status = Some e)) \/
     (List.length asked = 3%nat /\
      exists o1 o2 o3 t1 r1 t2 r2 t3 r3 w3,
        results = three_results o1 o2 o3 /\
        structured o1 t1 r1 /\ structured o2 t2 r2 /\ structured o3 t3 r3 /\
        w' = log_ui (StatusUpdate (py "Workflow completed!") (py "complete")) w3)).
Proof.
  pose proof (run_workflow_try_cases rt env task w) as Htry.
  unfold run_workflow, try_except.
  destruct (status_write env researcher_status) as [e|] eqn:E1.
  { rewrite Htry. exists [], (aborted e w), [].
    split; [reflexivity|]. split; [now rewrite app_nil_r|]. split.
    - apply (append_only_stages w w w w [] [] []);
        try apply history_grew_refl; cbn; lia.
    - left. split; [reflexivity|]. split; [cbn; lia|].
      exists e, w. split; [reflexivity|]. now left. }
  destruct Htry as (o1 & w1 & t1 & r1 & Hp1 & Hs1 & Htry).
  destruct (process_grows _ _ _ _ _ _ _ Hp1) as (q1 & e1 & Hq1 & L1 & G1).
  destruct (status_write env writer_status) as [e|] eqn:E2.
  { rewrite Htry. exists [], (aborted e w1), [q1].
    split; [reflexivity|]. split; [exact Hq1|]. split.
    - apply (append_only_stages w w1 w1 w1 e1 [] []);
        try apply history_grew_refl; try exact G1; cbn; lia.
    - left. split; [reflexivity|]. split; [cbn; lia|].
      exists e, w1. split; [reflexivity|]. right. now left. }
  destruct Htry as (o2 & w2 & t2 & r2 & Hp2 & Hs2 & Htry).
  destruct (process_grows _ _ _ _ _ _ _ Hp2) as (q2 & e2 & Hq2 & L2 & G2).
  destruct (status_write env critic_status) as [e|] eqn:E3.
  { rewrite Htry. exists [], (aborted e w2), [q1; q2].
    split; [reflexivity|].
    split; [unfold aborted; cbn [requests log_ui] in *;
            rewrite Hq2, Hq1, <- app_assoc; reflexivity|].
    split.
    - apply (append_only_stages w w1 w2 w2 e1 e2 []);
        try apply history_grew_refl; try exact G1; try exact G2; cbn; lia.
    - left. split; [reflexivity|]. split; [cbn; lia|].
      exists e, w2. split; [reflexivity|]. right. now right. }
  destruct Htry as (o3 & w3 & t3 & r3 & Hp3 & Hs3 & Htry).
  destruct (process_grows _ _ _ _ _ _ _ Hp3) as (q3 & e3 & Hq3 & L3 & G3).
  rewrite Htry. eexists _, _, [q1; q2; q3].
  split; [reflexivity|].
  split; [cbn [requests log_ui] in *; rewrite Hq3, Hq2, Hq1, <- !app_assoc; reflexivity|].
  split.
  - apply (append_only_stages w w1 w2 w3 e1 e2 e3); assumption.
  - right. split; [reflexivity|].
    exists o1, o2, o3, t1, r1, t2, r2, t3, r3, w3. auto.
Qed.

(** X13.  [run_workflow] never raises, and it returns either nothing or
    three entries, never one or two.  When it returns nothing the world ends
    with the status update and the error message of its [except] block; the
    three entries, each with both fields, come after the status update that
    says the workflow completed. *)
Theorem run_workflow_all_or_nothing (rt : runtime) (env : environment)
    (task : pystr) (w : world) :
  exists results w',
    run_workflow rt env task w = (Returned results, w') /\
    ((results = [] /\ exists e w1, w' = aborted e w1) \/
     (exists o1 o2 o3 t1 r1 t2 r2 t3 r3 w3,
        results = three_results o1 o2 o3 /\
        structured o1 t1 r1 /\ structured o2 t2 r2 /\ structured o3 t3 r3 /\
        w' = log_ui (StatusUpdate (py "Workflow completed!") (py "complete")) w3)).
Proof.
  destruct (run_workflow_outcomes rt env task w)
    as (results & w' & asked & Hrun & _ & _ & [(Hnil & _ & e & w1 & Hw & _) | (_ & H)]).
  - exists results, w'. split; [exact Hrun|]. left. eauto.
  - exists results, w'. split; [exact Hrun|]. right. exact H.
Qed.

(** X14.  A run asks the model at most three times, and it has asked three
    times whenever it returns its entries; every agent keeps its name and
    role, and its history keeps all it had and gains at most one entry. *)
Theorem run_workflow_footprint (rt : runtime) (env : environment)
    (task : pystr) (w : world) :
  exists results w' asked,
    run_workflow rt env task w = (Returned results, w') /\
    requests w' = requests w ++ asked /\
    (List.length asked <= 3)%nat /\
    (results <> [] -> List.length asked = 3%nat) /\
    append_only w w'.
Proof.
  destruct (run_workflow_outcomes rt env task w)
    as (results & w' & asked & Hrun & Hreq & Happ & Hcases).
  exists results, w', asked. split; [exact Hrun|]. split; [exact Hreq|].
  destruct Hcases as [(-> & Hlt & _) | (Heq & _)].
  - split; [lia|]. split; [|exact Happ]. congruence.
  - split; [lia|]. split; [|exact Happ]. auto.
Qed.

(** * The page: create_agent_card and main (app.py, lines 134-202) *)

Lemma put_all (wgs : list widget) (s : session) :
  fold_right (fun wg rest => P_bind (put wg) (fun _ => rest)) (P_ret tt) wgs s =
  (Returned tt, {| backend := backend s; page := page s ++ wgs |}).
Proof.
  revert s. induction wgs as [|wg wgs IH]; intros s; cbn [fold_right].
  - unfold P_ret. rewrite app_nil_r. now destruct s.
  - unfold P_bind at 1. unfold put at 1. rewrite IH. cbn [backend page].
    now rewrite <- app_assoc.
Qed.

Section PageFacts.

Variable rt : runtime.
Variable env : environment.

Lemma render_result_structured (result : WorkflowResult) (t r : pystr) (s : session) :
  structured (output result) t r ->
  render_result rt result s =
  (Returned tt, {| backend := backend s; page := page s ++ [card_of result] |}).
Proof.
  intros [Ht Hr].
  unfold render_result, card_of, P_bind, on_backend, lift, dict_getitem, dict_get, put.
  rewrite Ht. cbn [backend page]. rewrite Hr. reflexivity.
Qed.

Lemma render_results_structured (results : list WorkflowResult) (s : session) :
  Forall (fun result => exists t r, structured (output result) t r) results ->
  render_results rt results s =
  (Returned tt, {| backend := backend s; page := page s ++ map card_of results |}).
Proof.
  intros H. revert s. induction H as [|result results (t & r & Hs) _ IH]; intros s.
  - cbn. rewrite app_nil_r. now destruct s.
  - cbn [render_results map]. unfold P_bind.
    rewrite (render_result_structured result t r s Hs), IH. cbn [backend page].
    now rewrite <- app_assoc.
Qed.

(** The [try] block of [main] never raises: the two fields it reads from
    every entry are there. *)
Lemma main_try_returns (task : pystr) (s : session) :
  exists results w' asked,
    run_workflow rt env task (backend s) = (Returned results, w') /\
    main_try rt env task s =
      (Returned tt,
       {| backend := w';
          page := page s ++ [WSpinner (py "Processing your request...")] ++
                  results_page results |}) /\
    requests w' = requests (backend s) ++ asked /\
    (List.length asked <= 3)%nat /\
    (results = [] \/
     exists o1 o2 o3 t1 r1 t2 r2 t3 r3,
       results = three_results o1 o2 o3 /\
       structured o1 t1 r1 /\ structured o2 t2 r2 /\ structured o3 t3 r3).
Proof.
  destruct (run_workflow_outcomes rt env task (backend s))
    as (results & w' & asked & Hrun & Hreq & _ & Hcases).
  exists results, w', asked. split; [exact Hrun|].
  assert (Hlen : (List.length asked <= 3)%nat) by (destruct Hcases as [(_ & H & _)|[H _]]; lia).
  unfold main_try, P_bind, on_backend. unfold put at 1. cbn [backend page].
  rewrite Hrun.
  destruct Hcases as [(-> & _ & _) | (_ & o1 & o2 & o3 & t1 & r1 & t2 & r2 & t3 & r3 & w3 &
                                      -> & Hs1 & Hs2 & Hs3 & _)].
  - split; [reflexivity | auto].
  - split.
    + unfold three_results. unfold put at 1. cbn [backend page].
      rewrite render_results_structured
        by (repeat constructor; cbn [output]; eauto).
      cbn [backend page results_page]. rewrite <- !app_assoc. reflexivity.
    + split; [exact Hreq|]. split; [exact Hlen|]. right.
      exists o1, o2, o3, t1, r1, t2, r2, t3, r3. auto.
Qed.

End PageFacts.

(** X15.  [main] never raises, whatever the inputs and the collaborators
    do; it asks the model at most three times, and not at all unless a key
    and a task were entered and the button was clicked. *)
Theorem main_guards_the_model (rt : runtime) (env : environment)
    (api_key task : pystr) (run_clicked : bool) (s : session) :
  exists s' asked,
    main rt env api_key task run_clicked s = (Returned tt, s') /\
    requests (backend s') = requests (backend s) ++ asked /\
    (List.length asked <= 3)%nat /\
    (asked <> [] -> api_key <> [] /\ task <> [] /\ run_clicked = true).
Proof.
  unfold main. unfold P_bind at 1. rewrite put_all.
  destruct api_key as [|k api_key].
  { eexists. exists []. unfold put. cbn [backend page].
    split; [reflexivity|]. split; [now rewrite app_nil_r|]. split; [cbn; lia|].
    intros H. now destruct H. }
  unfold P_bind at 1. unfold new_system at 1. cbn [backend page].
  unfold P_bind at 1. rewrite put_all. cbn [backend page].
  destruct run_clicked.
  2:{ eexists. exists []. unfold P_ret. cbn [backend page requests].
      split; [reflexivity|]. split; [now rewrite app_nil_r|]. split; [cbn; lia|].
      intros H. now destruct H. }
  destruct task as [|c task].
  { eexists. exists []. unfold on_backend, st_error, tell. cbn [backend page requests log_ui].
    split; [reflexivity|]. split; [now rewrite app_nil_r|]. split; [cbn; lia|].
    intros H. now destruct H. }
  unfold P_try_except.
  match goal with
  | |- context [main_try rt env ?t ?s0] =>
      destruct (main_try_returns rt env t s0)
        as (results & w' & asked & _ & -> & Hreq & Hlen & _)
  end.
  eexists. exists asked. cbn [backend page requests] in *.
  split; [reflexivity|]. split; [exact Hreq|]. split; [exact Hlen|].
  intros _. repeat split; discriminate.
Qed.

(** X16.  With a key, a task and a click, [main] runs the workflow on three
    new agents and shows what it returned: nothing more than the spinner
    when the run returned nothing, else the header and three cards, titled
    Researcher, Writer and Critic, with the thoughts and the response of the
    three records.  The [except] block of [main] is never entered: the world
    after [main] is the world the workflow left. *)
Theorem main_renders_run (rt : runtime) (env : environment)
    (api_key task : pystr) (s : session) :
  api_key <> [] -> task <> [] ->
  let w0 := {| system := MultiAgentSystem_init;
               requests := requests (backend s); ui := ui (backend s) |} in
  exists results w',
    run_workflow rt env task w0 = (Returned results, w') /\
    main rt env api_key task true s =
      (Returned tt,
       {| backend := w';
          page := page s ++ page_top ++ page_inputs ++
                  [WSpinner (py "Processing your request...")] ++
                  results_page results |}) /\
    (results = [] \/
     exists o1 o2 o3 t1 r1 t2 r2 t3 r3,
       results = three_results o1 o2 o3 /\
       structured o1 t1 r1 /\ structured o2 t2 r2 /\ structured o3 t3 r3 /\
       results_page results =
         [WHeader (py "Results");
          create_agent_card (py "Researcher") (PStr t1) (PStr r1);
          create_agent_card (py "Writer") (PStr t2) (PStr r2);
          create_agent_card (py "Critic") (PStr t3) (PStr r3)]).
Proof.
  intros Hkey Htask w0.
  destruct api_key as [|k api_key]; [contradiction|].
  destruct task as [|c task]; [contradiction|].
  unfold main. unfold P_bind at 1. rewrite put_all.
  unfold P_bind at 1. unfold new_system at 1. cbn [backend page].
  unfold P_bind at 1. rewrite put_all. cbn [backend page].
  unfold P_try_except.
  match goal with
  | |- context [main_try rt env ?t ?s0] =>
      destruct (main_try_returns rt env t s0)
        as (results & w' & asked & Hrun & -> & _ & _ & Hcases)
  end.
  cbn [backend page] in *. fold w0 in Hrun.
  exists results, w'. split; [exact Hrun|].
  split; [now rewrite <- !app_assoc|].
  destruct Hcases as [->|(o1 & o2 & o3 & t1 & r1 & t2 & r2 & t3 & r3 & -> & Hs1 & Hs2 & Hs3)];
    [now left|right].
  exists o1, o2, o3, t1, r1, t2, r2, t3, r3.
  split; [reflexivity|]. repeat (split; [assumption|]).
  destruct Hs1 as [Ht1 Hr1], Hs2 as [Ht2 Hr2], Hs3 as [Ht3 Hr3].
  unfold three_results, results_page, card_of, dict_get. cbn [map agent output].
  rewrite Ht1, Hr1, Ht2, Hr2, Ht3, Hr3. reflexivity.
Qed.

Lemma main_renders_run_witness :
  py "sk-key" <> [] /\ py "tides" <> [] /\
  exists w',
    main example_runtime (replying reply_a_b) (py "sk-key") (py "tides") true fresh_session =
      (Returned tt,
       {| backend := w';
          page := page_top ++ page_inputs ++
                  [WSpinner (py "Processing your request...");
                   WHeader (py "Results");
                   create_agent_card (py "Researcher") (PStr (py "a")) (PStr (py "b"));
                   create_agent_card (py "Writer") (PStr (py "a")) (PStr (py "b"));
                   create_agent_card (py "Critic") (PStr (py "a")) (PStr (py "b"))] |}).
Proof.
  assert (Hkey : py "sk-key" <> []) by discriminate.
  assert (Htask : py "tides" <> []) by discriminate.
  split; [exact Hkey|]. split; [exact Htask|].
  destruct (main_renders_run example_runtime (replying reply_a_b) (py "sk-key") (py "tides")
              fresh_session Hkey Htask)
    as (results & w' & Hrun & Hmain & _).
  exists w'. rewrite Hmain. f_equal. f_equal. cbn [page fresh_session app]. do 2 f_equal.
  assert (Hres : fst (run_workflow example_runtime (replying reply_a_b) (py "tides")
                        fresh_world) =
                 Returned (three_results
                   [(py "thoughts", PStr (py "a")); (py "response", PStr (py "b"))]
                   [(py "thoughts", PStr (py "a")); (py "response", PStr (py "b"))]
                   [(py "thoughts", PStr (py "a")); (py "response", PStr (py "b"))]))
    by (vm_compute; reflexivity).
  change {| system := MultiAgentSystem_init; requests := requests (backend fresh_session);
            ui := ui (backend fresh_session) |} with fresh_world in Hrun.
  rewrite Hrun in Hres. cbn [fst] in Hres. injection Hres as ->.
  reflexivity.
Defined.

(** * run_workflow when the model is down *)

(** X18.  When the user interface takes every status line and every model
    call raises [e], the run still returns its three entries, each the error
    record of [e]; it asked three times, and no agent has changed. *)
Theorem run_workflow_outage (rt : runtime) (env : environment) (task : pystr)
    (w : world) (e : exn) :
  status_never_fails env ->
  (forall earlier req, messages_create env earlier req = Raised e) ->
  exists w',
    run_workflow rt env task w =
      (Returned (three_results (fallback_response e) (fallback_response e)
                   (fallback_response e)), w') /\
    system w' = system w /\
    List.length (requests w') = (List.length (requests w) + 3)%nat.
Proof.
  intros Hui Hdown.
  pose proof (run_workflow_try_cases rt env task w) as Htry.
  rewrite (Hui researcher_status), (Hui writer_status), (Hui critic_status) in Htry.
  destruct Htry as (o1 & w1 & t1 & r1 & Hp1 & Hs1 &
                    o2 & w2 & t2 & r2 & Hp2 & Hs2 &
                    o3 & w3 & t3 & r3 & Hp3 & Hs3 & Htry).
  rewrite (process_fault rt env _ _ _ e (Hdown _ _)) in Hp1.
  injection Hp1 as <- <-.
  rewrite (process_fault rt env _ _ _ e (Hdown _ _)) in Hp2.
  injection Hp2 as <- <-.
  rewrite (process_fault rt env _ _ _ e (Hdown _ _)) in Hp3.
  injection Hp3 as <- <-.
  eexists. unfold run_workflow, try_except. rewrite Htry.
  split; [reflexivity|]. split; [reflexivity|].
  cbn [requests log_ui log_request]. rewrite !length_app. cbn [List.length]. lia.
Qed.

Lemma run_workflow_outage_witness :
  status_never_fails (failing timeout_fault) /\
  exists w',
    run_workflow example_runtime (failing timeout_fault) (py "tides") fresh_world =
      (Returned (three_results (fallback_response timeout_fault)
                   (fallback_response timeout_fault) (fallback_response timeout_fault)), w') /\
    system w' = MultiAgentSystem_init.
Proof.
  assert (Hui : status_never_fails (failing timeout_fault)) by (intros label; reflexivity).
  split; [exact Hui|].
  destruct (run_workflow_outage example_runtime (failing timeout_fault) (py "tides")
              fresh_world timeout_fault Hui (fun _ _ => eq_refl))
    as (w' & Hrun & Hsys & _).
  exists w'. split; [exact Hrun | exact Hsys].
Defined.
